(** * Query compilation of neomodel's [sync_/match.py]

    A shallow embedding of the parts of [neomodel/sync_/match.py] that turn
    query-spec objects ([NodeSet], relationship paths, filter trees) into a
    Cypher statement and its parameter table: the placeholder registry, the
    operator table and filter translation, the rendering of filter trees,
    [build_query] and [_count], the relationship-path resolver, [has()] and
    the terminal operations [get] / [first]. *)

From Stdlib Require Import ZArith Ascii String List Lia.
From Stdlib Require Import DecimalString DecimalNat.
From stdpp Require Import base gmap strings.
Import ListNotations.

Open Scope string_scope.
Set Warnings "-register-all".

(* ------------------------------------------------------------------ *)
(** ** Python string helpers *)

Module Py.

(** [str(n)] for a non-negative Python int. *)
Definition str_of_nat (n : nat) : string :=
  NilEmpty.string_of_uint (Nat.to_uint n).

(** [sep.join(xs)] *)
Fixpoint join (sep : string) (xs : list string) : string :=
  match xs with
  | [] => ""
  | [x] => x
  | x :: rest => x ++ sep ++ join sep rest
  end.

(** [s.split("__")]: the separator is scanned left to right. *)
Fixpoint split_dunder_aux (s cur : string) : list string :=
  match s with
  | EmptyString => [cur]
  | String "_" (String "_" rest) => cur :: split_dunder_aux rest ""
  | String c rest => split_dunder_aux rest (cur ++ String c EmptyString)
  end.

Definition split_dunder (s : string) : list string := split_dunder_aux s "".

(** The characters of [s] in reverse order, [s[::-1]]. *)
Fixpoint string_rev (s : string) : string :=
  match s with
  | EmptyString => EmptyString
  | String c rest => string_rev rest ++ String c EmptyString
  end.

(** [s.rsplit("__")] without [maxsplit]: the separator is scanned right to
    left, each match taken at its rightmost position. As ["__"] reads the
    same both ways, this is [split] on the reversed string, with each piece
    and the order of the pieces reversed back: ["type___in"] gives
    [["type_"; "in"]]. *)
Definition rsplit_dunder (s : string) : list string :=
  rev (map string_rev (split_dunder (string_rev s))).

(** [sub in s] *)
Definition contains (sub s : string) : bool :=
  match String.index 0 sub s with Some _ => true | None => false end.

(** [str.lower()] on ASCII letters. *)
Definition lower_char (c : ascii) : ascii :=
  let n := nat_of_ascii c in
  if (65 <=? n)%nat && (n <=? 90)%nat then ascii_of_nat (n + 32) else c.

Fixpoint lower (s : string) : string :=
  match s with
  | EmptyString => EmptyString
  | String c rest => String (lower_char c) (lower rest)
  end.

(** The last character, [s[-1]]. *)
Fixpoint last_char (s : string) : option ascii :=
  match s with
  | EmptyString => None
  | String c EmptyString => Some c
  | String _ rest => last_char rest
  end.

(** [re.escape(s)] (Python >= 3.7): a backslash before each character of
    [()[]{}?*+-|^$\.&~# \t\n\r\v\f]. *)
Definition re_special (c : ascii) : bool :=
  existsb (fun d => Ascii.eqb c d)
    ["("; ")"; "["; "]"; "{"; "}"; "?"; "*"; "+"; "-"; "|"; "^"; "$";
     "\"; "."; "&"; "~"; "#"; " "; ascii_of_nat 9; ascii_of_nat 10;
     ascii_of_nat 13; ascii_of_nat 11; ascii_of_nat 12]%char.

Fixpoint re_escape (s : string) : string :=
  match s with
  | EmptyString => EmptyString
  | String c rest =>
      if re_special c then String "\" (String c (re_escape rest))
      else String c (re_escape rest)
  end.

(** [template.format(v)] for the operator templates of the module, which
    hold exactly one [{}] and no other brace: the first [{}] is replaced. *)
Fixpoint format1 (t v : string) : string :=
  match t with
  | EmptyString => EmptyString
  | String "{" (String "}" rest) => v ++ rest
  | String c rest => String c (format1 rest v)
  end.

End Py.

(* ------------------------------------------------------------------ *)
(** ** The placeholder registry ([QueryBuilder._register_place_holder]) *)

Module Registry.

Definition registry := gmap string nat.

(** [_register_place_holder(key)]: bump the occurrence count of [key] and
    return [key + "_" + str(count)]. *)
Definition register_place_holder (key : string) (reg : gmap string nat)
  : string * gmap string nat :=
  let c := match reg !! key with Some n => S n | None => 1%nat end in
  (key ++ "_" ++ Py.str_of_nat c, <[key := c]> reg).

Section Sequence.
Context {V : Type}.

(** A sequence of registrations, each followed by
    [self._query_params[place_holder] = val] as in [_parse_q_filters],
    [build_where_stmt], [build_node] and [_contains]. *)
Fixpoint register_all (kvs : list (string * V)) (reg : gmap string nat)
  (params : gmap string V) : list string * gmap string nat * gmap string V :=
  match kvs with
  | [] => ([], reg, params)
  | (k, v) :: rest =>
      let '(ph, reg1) := register_place_holder k reg in
      let '(names, reg2, params2) := register_all rest reg1 (<[ph := v]> params) in
      (ph :: names, reg2, params2)
  end.

End Sequence.

(** Occurrence count of [k] already in the registry. *)
Definition base (reg : gmap string nat) (k : string) : nat :=
  match reg !! k with Some n => n | None => 0%nat end.

End Registry.

(* ------------------------------------------------------------------ *)
(** ** Python values, dicts and raised exceptions *)

Module Model.

(** The Python values that reach the filter code. *)
Inductive pyval :=
| PyNone
| PyBool (b : bool)
| PyInt (z : Z)
| PyStr (s : string)
| PyList (l : list pyval)
| PyTuple (l : list pyval)
| PyNodeSet (id : nat)          (* a [NodeSet] instance *)
| PyObj (repr : string).        (* any other object *)

(** The exceptions raised on the modelled paths, one constructor per
    [raise] site (or implicit Python failure). *)
Inductive error :=
| ErrUnpack (key : string)              (* ValueError: too many values to unpack *)
| ErrUnknownOperator (op : string)      (* KeyError in OPERATOR_TABLE[operator] *)
| ErrNoSuchProperty (prop : string)     (* ValueError "No such property ..." *)
| ErrAttribute (name : string)          (* AttributeError from getattr *)
| ErrDeflate (prop : string)            (* the property's deflate() raised *)
| ErrInNotSequence (key : string)       (* ValueError "Value must be a tuple or list ..." *)
| ErrIsNullNotBool (key : string)       (* ValueError "Value must be a bool ..." *)
| ErrRegexNotString (key : string)      (* ValueError "Must be a string value ..." *)
| ErrNoSuchRelation (key : string)      (* ValueError "No such relation ..." *)
| ErrHasNodeSet                         (* NotImplementedError "Not implemented yet" *)
| ErrHasNotBool                         (* ValueError "Expecting True / False / NodeSet ..." *)
| ErrMultipleNodesReturned              (* MultipleNodesReturned *)
| ErrDoesNotExist.                      (* source_class.DoesNotExist *)

Inductive result (A : Type) :=
| Ok (a : A)
| Err (e : error).
Arguments Ok {A} a.
Arguments Err {A} e.

Definition bind {A B} (m : result A) (k : A -> result B) : result B :=
  match m with Ok a => k a | Err e => Err e end.

Notation "'let*' x ':=' m 'in' k" := (bind m (fun x => k))
  (at level 200, x name, m at level 100, k at level 200).

(** Dicts with string keys in insertion order. *)
Definition dict (V : Type) := list (string * V).

Fixpoint dict_get {V} (d : dict V) (k : string) : option V :=
  match d with
  | [] => None
  | (k', v) :: rest => if String.eqb k k' then Some v else dict_get rest k
  end.

(** [d[k] = v]: an existing key keeps its position. *)
Fixpoint dict_set {V} (d : dict V) (k : string) (v : V) : dict V :=
  match d with
  | [] => [(k, v)]
  | (k', v') :: rest => if String.eqb k k' then (k, v) :: rest else (k', v') :: dict_set rest k v
  end.

(** [d.update(e)] *)
Definition dict_update {V} (d e : dict V) : dict V :=
  fold_left (fun acc kv => dict_set acc (fst kv) (snd kv)) e d.

Definition dict_values {V} (d : dict V) : list V := map snd d.

Definition in_strings (x : string) (l : list string) : bool :=
  existsb (String.eqb x) l.

(* ------------------------------------------------------------------ *)
(** ** Properties and node classes *)

(** [Property] subclasses as far as the filter code distinguishes them. *)
Inductive prop_kind :=
| Regular
| ArrayProp                     (* ArrayProperty *)
| AliasProp (target : string).  (* AliasProperty; [aliased_to()] = target *)

Record property := {
  p_kind : prop_kind;
  p_deflate : pyval -> option pyval;   (* [deflate]; [None] when it raises *)
  p_db_property : string               (* [db_property], "" when unset *)
}.

(** [get_db_property_name(attribute_name)]: [self.db_property or attribute_name]. *)
Definition get_db_property_name (p : property) (name : string) : string :=
  if String.eqb (p_db_property p) "" then name else p_db_property p.

Inductive direction := OUTGOING | INCOMING | EITHER.

Record node_class := {
  cls_name : string;                      (* [__name__] *)
  cls_repr : string;                      (* [str(cls)] *)
  cls_label : string;                     (* [__label__] *)
  cls_props : dict property               (* [defined_properties(rels=False)] *)
}.

(** A relationship definition: [definition["node_class"]], ["direction"],
    ["relation_type"]. *)
Record rel_def := {
  rd_node_class : node_class;
  rd_direction : direction;
  rd_relation_type : option string
}.

End Model.

(* ------------------------------------------------------------------ *)
(** ** The operator table and filter translation *)

Module Filters.
Import Model.

Definition _SPECIAL_OPERATOR_IN := "IN".
Definition _SPECIAL_OPERATOR_ARRAY_IN := "any(x IN {ident}.{prop} WHERE x IN {val})".
Definition _SPECIAL_OPERATOR_INSENSITIVE := "(?i)".
Definition _SPECIAL_OPERATOR_ISNULL := "IS NULL".
Definition _SPECIAL_OPERATOR_ISNOTNULL := "IS NOT NULL".
Definition _SPECIAL_OPERATOR_REGEX := "=~".

Definition _UNARY_OPERATORS := [_SPECIAL_OPERATOR_ISNULL; _SPECIAL_OPERATOR_ISNOTNULL].

Definition _REGEX_INSESITIVE := _SPECIAL_OPERATOR_INSENSITIVE ++ "{}".
Definition _REGEX_CONTAINS := ".*{}.*".
Definition _REGEX_STARTSWITH := "{}.*".
Definition _REGEX_ENDSWITH := ".*{}".

(** regex operations that require escaping *)
Definition _STRING_REGEX_OPERATOR_TABLE : dict string := [
  ("iexact", _REGEX_INSESITIVE);
  ("contains", _REGEX_CONTAINS);
  ("icontains", _SPECIAL_OPERATOR_INSENSITIVE ++ _REGEX_CONTAINS);
  ("startswith", _REGEX_STARTSWITH);
  ("istartswith", _SPECIAL_OPERATOR_INSENSITIVE ++ _REGEX_STARTSWITH);
  ("endswith", _REGEX_ENDSWITH);
  ("iendswith", _SPECIAL_OPERATOR_INSENSITIVE ++ _REGEX_ENDSWITH)].

(** regex operations that do not require escaping, then updated with the
    table above *)
Definition _REGEX_OPERATOR_TABLE : dict string :=
  dict_update [("iregex", _REGEX_INSESITIVE)] _STRING_REGEX_OPERATOR_TABLE.

Definition OPERATOR_TABLE : dict string :=
  dict_update [
    ("lt", "<"); ("gt", ">"); ("lte", "<="); ("gte", ">="); ("ne", "<>");
    ("in", _SPECIAL_OPERATOR_IN); ("isnull", _SPECIAL_OPERATOR_ISNULL);
    ("regex", _SPECIAL_OPERATOR_REGEX); ("exact", "=")]
  _REGEX_OPERATOR_TABLE.

(** [transform_in_operator_to_filter] *)
Definition transform_in_operator_to_filter (operator filter_key : string)
  (filter_value : pyval) (property_obj : property) : result (string * pyval) :=
  match filter_value with
  | PyTuple items | PyList items =>
      match p_kind property_obj with
      | ArrayProp =>
          match p_deflate property_obj filter_value with
          | Some d => Ok (_SPECIAL_OPERATOR_ARRAY_IN, d)
          | None => Err (ErrDeflate filter_key)
          end
      | _ =>
          match mapM (p_deflate property_obj) items with
          | Some ds => Ok (operator, PyList ds)
          | None => Err (ErrDeflate filter_key)
          end
      end
  | _ => Err (ErrInNotSequence filter_key)
  end.

(** [transform_null_operator_to_filter] *)
Definition transform_null_operator_to_filter (filter_key : string) (filter_value : pyval)
  : result (string * pyval) :=
  match filter_value with
  | PyBool b => Ok (if b then "IS NULL" else "IS NOT NULL", PyNone)
  | _ => Err (ErrIsNullNotBool filter_key)
  end.

(** [transform_regex_operator_to_filter]: the value is escaped when the
    operator's template is one of the values of
    [_STRING_REGEX_OPERATOR_TABLE]. *)
Definition transform_regex_operator_to_filter (operator filter_key : string)
  (filter_value : pyval) (property_obj : property) : result (string * pyval) :=
  match p_deflate property_obj filter_value with
  | None => Err (ErrDeflate filter_key)
  | Some (PyStr s) =>
      let s' := if in_strings operator (dict_values _STRING_REGEX_OPERATOR_TABLE)
                then Py.re_escape s else s in
      Ok (_SPECIAL_OPERATOR_REGEX, PyStr (Py.format1 operator s'))
  | Some _ => Err (ErrRegexNotString filter_key)
  end.

(** [transform_operator_to_filter] *)
Definition transform_operator_to_filter (operator filter_key : string)
  (filter_value : pyval) (property_obj : property) : result (string * pyval) :=
  if String.eqb operator _SPECIAL_OPERATOR_IN then
    transform_in_operator_to_filter operator filter_key filter_value property_obj
  else if String.eqb operator _SPECIAL_OPERATOR_ISNULL then
    transform_null_operator_to_filter filter_key filter_value
  else if in_strings operator (dict_values _REGEX_OPERATOR_TABLE) then
    transform_regex_operator_to_filter operator filter_key filter_value property_obj
  else
    match p_deflate property_obj filter_value with
    | Some d => Ok (operator, d)
    | None => Err (ErrDeflate filter_key)
    end.

(** Splitting a filter key: [prop, operator = key.rsplit("__")] and
    [operator = OPERATOR_TABLE[operator]], or the key itself with ["="]. *)
Definition split_filter_key (key : string) : result (string * string) :=
  if Py.contains "__" key then
    match Py.rsplit_dunder key with
    | [prop; op] =>
        match dict_get OPERATOR_TABLE op with
        | Some operator => Ok (prop, operator)
        | None => Err (ErrUnknownOperator op)
        end
    | _ => Err (ErrUnpack key)
    end
  else Ok (key, "=").

(** One iteration of the loop of [process_filter_args]: the database name
    of the property and the [(operator, deflated_value)] pair. *)
Definition process_filter_arg (cls : node_class) (key : string) (value : pyval)
  : result (string * (string * pyval)) :=
  let* po := split_filter_key key in
  let '(prop, operator) := po in
  match dict_get (cls_props cls) prop with
  | None => Err (ErrNoSuchProperty prop)
  | Some property_obj =>
      let* r :=
        match p_kind property_obj with
        | AliasProp target =>
            match dict_get (cls_props cls) target with
            | None => Err (ErrAttribute target)
            | Some canonical =>
                match p_deflate canonical value with
                | Some d => Ok (target, (operator, d))
                | None => Err (ErrDeflate key)
                end
            end
        | _ =>
            let* od := transform_operator_to_filter operator key value property_obj in
            Ok (prop, od)
        end in
      let '(prop', od) := r in
      match dict_get (cls_props cls) prop' with
      | None => Err (ErrAttribute prop')
      | Some p => Ok (get_db_property_name p prop', od)
      end
  end.

(** [process_filter_args(cls, kwargs)] *)
Fixpoint process_filter_args (cls : node_class) (kwargs : dict pyval)
  (output : dict (string * pyval)) : result (dict (string * pyval)) :=
  match kwargs with
  | [] => Ok output
  | (key, value) :: rest =>
      let* r := process_filter_arg cls key value in
      process_filter_args cls rest (dict_set output (fst r) (snd r))
  end.

End Filters.


(* ------------------------------------------------------------------ *)
(** ** Rendering filter trees ([QueryBuilder._parse_q_filters]) *)

Module Render.
Import Model Filters.

(** [str.format] with keyword arguments, for templates with named fields [{name}] only. *)
Fixpoint format_kw (kw : dict string) (t : string) (field : option string) : string :=
  match t with
  | EmptyString => EmptyString
  | String c rest =>
      match field with
      | None =>
          if Ascii.eqb c "{" then format_kw kw rest (Some "")
          else String c (format_kw kw rest None)
      | Some n =>
          if Ascii.eqb c "}" then
            match dict_get kw n with Some v => v | None => "" end ++ format_kw kw rest None
          else format_kw kw rest (Some (n ++ String c EmptyString))
      end
  end.

(** The part of the [QueryBuilder] state the filter code touches:
    [_place_holder_registry] and [_query_params]. *)
Record builder := {
  b_registry : gmap string nat;
  b_params : gmap string pyval
}.

Definition empty_builder : builder := {| b_registry := ∅; b_params := ∅ |}.

(** An exception leaves the builder as it was when it was raised. *)
Definition M (A : Type) := builder -> result A * builder.

(** [_register_place_holder] on the builder. *)
Definition register (key : string) (st : builder) : string * builder :=
  let '(ph, reg') := Registry.register_place_holder key (b_registry st) in
  (ph, {| b_registry := reg'; b_params := b_params st |}).

(** The inner loop of [_parse_q_filters] over [filters.items()]. *)
Fixpoint leaf_statements (ident : string) (filters : dict (string * pyval)) (st : builder)
  : list string * builder :=
  match filters with
  | [] => ([], st)
  | (prop, (operator, val)) :: rest =>
      let '(stmt, st1) :=
        if in_strings operator _UNARY_OPERATORS then
          (ident ++ "." ++ prop ++ " " ++ operator, st)
        else
          let '(place_holder, st0) := register (ident ++ "_" ++ prop) st in
          let statement :=
            if String.eqb operator _SPECIAL_OPERATOR_ARRAY_IN then
              format_kw [("ident", ident); ("prop", prop); ("val", "$" ++ place_holder)]
                operator None
            else ident ++ "." ++ prop ++ " " ++ operator ++ " $" ++ place_holder in
          (statement, {| b_registry := b_registry st0;
                         b_params := <[place_holder := val]> (b_params st0) |}) in
      let '(stmts, st2) := leaf_statements ident rest st1 in
      (stmt :: stmts, st2)
  end.

(** A leaf [(key, value)] of a filter tree: [process_filter_args] on
    [{key: value}], then one statement per output entry. *)
Definition parse_leaf (ident : string) (cls : node_class) (key : string) (value : pyval)
  : M (list string) := fun st =>
  match process_filter_args cls [(key, value)] [] with
  | Err e => (Err e, st)
  | Ok filters =>
      let '(stmts, st') := leaf_statements ident filters st in (Ok stmts, st')
  end.

(** [Q] filter trees: a leaf is a [(key, value)] pair, an inner node has
    a connector, a negation flag and children. *)
Inductive qnode :=
| QLeaf (key : string) (value : pyval)
| QNode (connector : string) (negated : bool) (children : list qnode).

Definition Q_AND := "AND".
Definition Q_OR := "OR".

(** [_parse_q_filters(ident, q, source_class)] *)
Fixpoint parse_q_filters (ident : string) (cls : node_class) (q : qnode) : M string :=
  fun st =>
  match q with
  | QLeaf key _ => (Err (ErrAttribute "children"), st)
  | QNode connector negated children =>
      let fix go (cs : list qnode) (target : list string) (st : builder)
        : result (list string) * builder :=
        match cs with
        | [] => (Ok target, st)
        | (QNode c _ _ as child) :: rest =>
            match parse_q_filters ident cls child st with
            | (Err e, st1) => (Err e, st1)
            | (Ok q_childs, st1) =>
                let q_childs := if String.eqb c Q_OR then "(" ++ q_childs ++ ")" else q_childs in
                go rest (target ++ [q_childs])%list st1
            end
        | QLeaf key value :: rest =>
            match parse_leaf ident cls key value st with
            | (Err e, st1) => (Err e, st1)
            | (Ok stmts, st1) => go rest (target ++ stmts)%list st1
            end
        end in
      match go children [] st with
      | (Err e, st') => (Err e, st')
      | (Ok target, st') =>
          let ret := Py.join (" " ++ connector ++ " ") target in
          (Ok (if negated then "NOT (" ++ ret ++ ")" else ret), st')
      end
  end.

(** [build_where_stmt(ident, filters)] for the list of filter dicts of a
    [Traversal] ([Traversal.match]); the [__NOT__] rows are not modelled.
    Each row is the output of [process_filter_args]. *)
Fixpoint where_rows (ident : string) (rows : list (dict (string * pyval))) (st : builder)
  : list string * builder :=
  match rows with
  | [] => ([], st)
  | row :: rest =>
      let fix go (r : dict (string * pyval)) (st : builder) : list string * builder :=
        match r with
        | [] => ([], st)
        | (prop, (operator, val)) :: r' =>
            let '(statement, st1) :=
              if in_strings operator _UNARY_OPERATORS then
                (" " ++ ident ++ "." ++ prop ++ " " ++ operator, st)
              else
                let '(place_holder, st0) := register (ident ++ "_" ++ prop) st in
                (" " ++ ident ++ "." ++ prop ++ " " ++ operator ++ " $" ++ place_holder,
                 {| b_registry := b_registry st0;
                    b_params := <[place_holder := val]> (b_params st0) |}) in
            let '(ss, st2) := go r' st1 in (statement :: ss, st2)
        end in
      let '(ss, st1) := go row st in
      let '(ss', st2) := where_rows ident rest st1 in ((ss ++ ss')%list, st2)
  end.

Definition build_where_stmt_rows (ident : string) (rows : list (dict (string * pyval)))
  (st : builder) : string * builder :=
  let '(stmts, st') := where_rows ident rows st in (Py.join " AND " stmts, st').

End Render.



(* ------------------------------------------------------------------ *)
(** ** The query AST and its rendering ([QueryAST], [build_query], [_count]) *)

Module Query.
Import Model.

(** [str(z)] for a Python int. *)
Definition str_of_Z (z : Z) : string := NilEmpty.string_of_int (Z.to_int z).

(** [f"{x}"] for an optional string: [None] renders as ["None"]. *)
Definition fmt_opt (o : option string) : string :=
  match o with Some s => s | None => "None" end.

(** Python truthiness of an optional string, an optional int and an
    optional list. *)
Definition truthy_str (o : option string) : bool :=
  match o with Some s => negb (String.eqb s "") | None => false end.
Definition truthy_int (o : option Z) : bool :=
  match o with Some z => negb (Z.eqb z 0) | None => false end.

(** [QueryAST]; [additional_return] set to [None] by [_count] is the empty
    list here (both are falsy where it is read). [order_by] is the list of
    ordering items ([build_order_by] stores ["r"] for a random order, which
    [", ".join] renders as ["r"]). The subgraph and result class are not
    read by [build_query]. *)
Record ast := {
  a_match : list string;
  a_optional_match : list string;
  a_where : list string;
  a_with_clause : option string;
  a_return_clause : option string;
  a_order_by : option (list string);
  a_skip : option Z;
  a_limit : option Z;
  a_lookup : option string;
  a_additional_return : list string;
  a_is_count : bool
}.

(** What [build_query] reads from the node set: [_subqueries] (compiled
    text and declared variables) and [_extra_results] (name and [str] of
    the aggregate); both are empty for a [Traversal]. *)
Record query_ctx := {
  q_subqueries : list (string * list string);
  q_extra_results : dict string;
  q_subquery_context : bool
}.

(** The lookup, MATCH, OPTIONAL MATCH and WHERE parts of [build_query]. *)
Definition query_head (a : ast) : string :=
  (match a_lookup a with Some l => l | None => "" end) ++
  (match a_match a with [] => "" | m => " MATCH " ++ Py.join " MATCH " m end) ++
  (match a_optional_match a with
   | [] => "" | m => " OPTIONAL MATCH " ++ Py.join " OPTIONAL MATCH " m end) ++
  (match a_where a with [] => "" | w => " WHERE " ++ Py.join " AND " w end).

Definition with_part (w : option string) : string :=
  if truthy_str w then " WITH " ++ fmt_opt w else "".

(** The [CALL { ... }] blocks, one per subquery. *)
Definition calls_part (ctx : query_ctx) (return_clause : option string) : string :=
  String.concat ""
    (map (fun sq => " CALL { WITH " ++ fmt_opt return_clause ++ " " ++ fst sq ++ " } ")
       (q_subqueries ctx)).

(** [returned_items.remove(x)]: the first occurrence. *)
Fixpoint remove_first (x : string) (l : list string) : list string :=
  match l with
  | [] => []
  | y :: r => if String.eqb x y then r else y :: remove_first x r
  end.

(** The items after RETURN. *)
Definition return_items (ctx : query_ctx) (return_clause : option string)
  (additional_return : list string) : list string :=
  let items := concat (map snd (q_subqueries ctx)) in
  let items := if truthy_str return_clause && negb (q_subquery_context ctx)
               then (items ++ [fmt_opt return_clause])%list else items in
  let items := (items ++ additional_return)%list in
  fold_left (fun items (e : string * string) =>
               let '(varname, vardef) := e in
               let items := if in_strings varname items then remove_first varname items
                            else items in
               (items ++ [(vardef ++ " AS " ++ varname)%string])%list)
    (q_extra_results ctx) items.

Definition skip_part (a : ast) : string :=
  if truthy_int (a_skip a) && negb (a_is_count a)
  then " SKIP " ++ str_of_Z (match a_skip a with Some z => z | None => 0 end)%Z else "".

Definition limit_part (a : ast) : string :=
  if truthy_int (a_limit a) && negb (a_is_count a)
  then " LIMIT " ++ str_of_Z (match a_limit a with Some z => z | None => 0 end)%Z else "".

Definition order_part (a : ast) : string :=
  match a_order_by a with
  | None | Some [] => ""
  | Some o => " ORDER BY " ++ Py.join ", " o
  end.

(** [build_query] *)
Definition build_query (ctx : query_ctx) (a : ast) : string :=
  query_head a ++ with_part (a_with_clause a) ++ calls_part ctx (a_return_clause a) ++
  " RETURN " ++ Py.join ", " (return_items ctx (a_return_clause a) (a_additional_return a)) ++
  order_part a ++ skip_part a ++ limit_part a.

(** The AST updates of [_count], before it calls [build_query]. *)
Definition count_ast (a : ast) : ast :=
  let rc := fmt_opt (a_return_clause a) in
  let w := rc in
  let w := if truthy_int (a_skip a)
           then w ++ " SKIP " ++ str_of_Z (match a_skip a with Some z => z | None => 0 end)%Z
           else w in
  let w := if truthy_int (a_limit a)
           then w ++ " LIMIT " ++ str_of_Z (match a_limit a with Some z => z | None => 0 end)%Z
           else w in
  {| a_match := a_match a; a_optional_match := a_optional_match a; a_where := a_where a;
     a_with_clause := Some w; a_return_clause := Some ("count(" ++ rc ++ ")");
     a_order_by := None; a_skip := a_skip a; a_limit := a_limit a; a_lookup := a_lookup a;
     a_additional_return := []; a_is_count := true |}.

(** The statement [_count] sends to the database. *)
Definition count_query (ctx : query_ctx) (a : ast) : string :=
  build_query ctx (count_ast a).

End Query.


(* ------------------------------------------------------------------ *)
(** ** Node sets and their terminal operations *)

Module Nodes.
Import Model Render Query.

(** Modelled from the spec: [neomodel.match_q.Q] (not in this source
    tree). [Q(kwargs)] is an AND node whose children are the
    [(key, value)] leaves. *)
Definition q_of_kwargs (kwargs : dict pyval) : qnode :=
  QNode Q_AND false (map (fun kv => QLeaf (fst kv) (snd kv)) kwargs).

(** Modelled from the spec: [Q.__bool__], a tree is truthy when it has
    children. *)
Definition q_truthy (q : qnode) : bool :=
  match q with QNode _ _ [] => false | _ => true end.

(** Modelled from the spec: [q1 & q2], the AND-combination of two trees;
    an empty tree is neutral. *)
Definition q_and (q1 q2 : qnode) : qnode :=
  if negb (q_truthy q2) then q1
  else if negb (q_truthy q1) then q2
  else QNode Q_AND false [q1; q2].

(** Modelled from the spec: [Q(q)], a tree wrapping one tree. *)
Definition q_wrap (q : qnode) : qnode := QNode Q_AND false [q].

(** The state of a [NodeSet] whose source is a [StructuredNode] class:
    [q_filters], [skip] and [limit] ([None] while the attribute is not
    set) and [_extra_results]. [has()], [order_by], relations to fetch and
    subqueries are left empty. *)
Record node_set := {
  ns_source : node_class;
  ns_q_filters : qnode;
  ns_skip : option Z;
  ns_limit : option Z;
  ns_extra_results : dict string
}.

Definition new_node_set (cls : node_class) : node_set :=
  {| ns_source := cls; ns_q_filters := QNode Q_AND false []; ns_skip := None;
     ns_limit := None; ns_extra_results := [] |}.

(** [NodeSet.filter(kwargs)] *)
Definition filter (ns : node_set) (kwargs : dict pyval) : node_set :=
  match kwargs with
  | [] => ns
  | _ => {| ns_source := ns_source ns;
            ns_q_filters := q_wrap (q_and (ns_q_filters ns) (q_of_kwargs kwargs));
            ns_skip := ns_skip ns; ns_limit := ns_limit ns;
            ns_extra_results := ns_extra_results ns |}
  end.

Definition ns_ctx (ns : node_set) : query_ctx :=
  {| q_subqueries := []; q_extra_results := ns_extra_results ns;
     q_subquery_context := false |}.

(** [QueryBuilder(ns).build_ast()] for a class source: [build_label]
    matches [(ident:Label)] and makes [ident] the primary return, the
    filter tree is rendered by [build_where_stmt], [skip] and [limit] are
    copied from the node set. *)
Definition build_ast (ns : node_set) : result (ast * gmap string pyval) :=
  let cls := ns_source ns in
  let ident := Py.lower (cls_label cls) in
  let '(w, st) :=
    if q_truthy (ns_q_filters ns) then
      parse_q_filters ident cls (ns_q_filters ns) empty_builder
    else (Ok "", empty_builder) in
  match w with
  | Err e => Err e
  | Ok stmts =>
      Ok ({| a_match := ["(" ++ ident ++ ":" ++ cls_label cls ++ ")"];
             a_optional_match := []; a_where := if String.eqb stmts "" then [] else [stmts];
             a_with_clause := None; a_return_clause := Some ident; a_order_by := None;
             a_skip := ns_skip ns; a_limit := ns_limit ns; a_lookup := None;
             a_additional_return := []; a_is_count := false |}, b_params st)
  end.

(** The items [_execute()] yields: a row's single value when the first row
    has one column, the rows themselves otherwise. *)
Inductive item :=
| Value (v : pyval)
| Row (r : list pyval).

Definition execute_rows (results : list (list pyval)) : list item :=
  match results with
  | r0 :: _ =>
      if Nat.eqb (length r0) 1
      then map (fun r => Value (hd PyNone r)) results
      else map Row results
  | [] => []
  end.

Section Terminal.
(** The database: [db.cypher_query(query, params)]. *)
Variable cypher_query : string -> gmap string pyval -> list (list pyval).

(** [NodeSet._get(limit, **kwargs)]: the node set it leaves behind and the
    items. *)
Definition _get (ns : node_set) (limit : option Z) (kwargs : dict pyval)
  : node_set * result (list item) :=
  let ns1 := filter ns kwargs in
  let ns2 := if truthy_int limit
             then {| ns_source := ns_source ns1; ns_q_filters := ns_q_filters ns1;
                     ns_skip := ns_skip ns1; ns_limit := limit;
                     ns_extra_results := ns_extra_results ns1 |}
             else ns1 in
  match build_ast ns2 with
  | Err e => (ns2, Err e)
  | Ok (a, params) =>
      (ns2, Ok (execute_rows (cypher_query (build_query (ns_ctx ns2) a) params)))
  end.

(** [NodeSet.get(kwargs)] *)
Definition get (ns : node_set) (kwargs : dict pyval) : node_set * result item :=
  let '(ns', r) := _get ns (Some 2%Z) kwargs in
  (ns', match r with
        | Err e => Err e
        | Ok result =>
            if (1 <? length result)%nat then Err ErrMultipleNodesReturned
            else match result with
                 | [] => Err ErrDoesNotExist
                 | x :: _ => Ok x
                 end
        end).

(** [NodeSet.get_or_none(kwargs)] *)
Definition get_or_none (ns : node_set) (kwargs : dict pyval)
  : node_set * result (option item) :=
  let '(ns', r) := get ns kwargs in
  (ns', match r with
        | Ok x => Ok (Some x)
        | Err ErrDoesNotExist => Ok None
        | Err e => Err e
        end).

(** [NodeSet.first(kwargs)] *)
Definition first (ns : node_set) (kwargs : dict pyval) : node_set * result item :=
  let '(ns', r) := _get ns (Some 1%Z) kwargs in
  (ns', match r with
        | Err e => Err e
        | Ok (x :: _) => Ok x
        | Ok [] => Err ErrDoesNotExist
        end).

(** [NodeSet.first_or_none(kwargs)] *)
Definition first_or_none (ns : node_set) (kwargs : dict pyval)
  : node_set * result (option item) :=
  let '(ns', r) := first ns kwargs in
  (ns', match r with
        | Ok x => Ok (Some x)
        | Err ErrDoesNotExist => Ok None
        | Err e => Err e
        end).

End Terminal.

End Nodes.


(* ------------------------------------------------------------------ *)
(** ** [has()] ([process_has_args]) *)

Module Has.
Import Model.

(** The loop of [process_has_args]; [rel_definitions] is
    [cls.defined_properties(properties=False, rels=True, aliases=False)]. *)
Fixpoint process_has_args_loop (rel_definitions : dict rel_def) (kwargs : dict pyval)
  (match_ dont_match : dict rel_def) : result (dict rel_def * dict rel_def) :=
  match kwargs with
  | [] => Ok (match_, dont_match)
  | (key, value) :: rest =>
      match dict_get rel_definitions key with
      | None => Err (ErrNoSuchRelation key)
      | Some d =>
          match value with
          | PyBool true => process_has_args_loop rel_definitions rest (dict_set match_ key d) dont_match
          | PyBool false => process_has_args_loop rel_definitions rest match_ (dict_set dont_match key d)
          | PyNodeSet _ => Err ErrHasNodeSet
          | _ => Err ErrHasNotBool
          end
      end
  end.

Definition process_has_args (rel_definitions : dict rel_def) (kwargs : dict pyval)
  : result (dict rel_def * dict rel_def) :=
  process_has_args_loop rel_definitions kwargs [] [].

(** [NodeSet.has] on the node set's [must_match] and [dont_match]:
    both are updated only when [process_has_args] returns. No database
    access is involved. *)
Definition has (rel_definitions : dict rel_def) (must_match dont_match : dict rel_def)
  (kwargs : dict pyval) : result (dict rel_def * dict rel_def) :=
  match process_has_args rel_definitions kwargs with
  | Err e => Err e
  | Ok (m, d) => Ok (dict_update must_match m, dict_update dont_match d)
  end.

End Has.


(* ------------------------------------------------------------------ *)
(** ** The relationship-path resolver ([build_traversal_from_path]) *)

Module Traverse.
Import Model.

(** [lhs[-1] == ")"] *)
Definition ends_with_paren (s : string) : bool :=
  match Py.last_char s with Some c => Ascii.eqb c ")"%char | None => false end.

(** [_rel_helper(lhs, rhs, ident, relation_type, direction)] without
    relationship properties. [lhs[-1]] on an empty string raises in Python;
    the resolver never passes one. *)
Definition _rel_helper (lhs rhs ident : string) (relation_type : option string)
  (dir : direction) : string :=
  let rel_def :=
    match relation_type with
    | None => ""
    | Some t =>
        if String.eqb t "*" then "[*]"
        else "[" ++ ident ++ ":`" ++ t ++ "`" ++ "]"
    end in
  let stmt :=
    match dir with
    | OUTGOING => "-" ++ rel_def ++ "->"
    | INCOMING => "<-" ++ rel_def ++ "-"
    | EITHER => "-" ++ rel_def ++ "-"
    end in
  let lhs := if ends_with_paren lhs then lhs else "(" ++ lhs ++ ")" in
  let rhs := if ends_with_paren rhs then rhs else "(" ++ rhs ++ ")" in
  lhs ++ stmt ++ rhs.

(** The relation dict given to the resolver: ["path"], ["alias"] (absent:
    [None]), ["include_in_return"], ["optional"]. *)
Record relation := {
  rl_path : string;
  rl_alias : option string;
  rl_include_in_return : bool;
  rl_optional : bool
}.

(** The part of the [QueryBuilder] state the resolver touches:
    [_ident_count], [_node_counters] and the AST's match, optional match,
    return and additional-return fields. The subgraph ([with_subgraph]) is
    not modelled: it is only written to [_ast.subgraph]. *)
Record tstate := {
  t_ident_count : nat;
  t_node_counters : gmap string nat;
  t_match : list string;
  t_optional_match : list string;
  t_return_clause : option string;
  t_additional_return : list string
}.

Definition set_counter (st : tstate) (k : string) (n : nat) : tstate :=
  {| t_ident_count := t_ident_count st; t_node_counters := <[k := n]> (t_node_counters st);
     t_match := t_match st; t_optional_match := t_optional_match st;
     t_return_clause := t_return_clause st; t_additional_return := t_additional_return st |}.

Definition set_return_clause (st : tstate) (rc : string) : tstate :=
  {| t_ident_count := t_ident_count st; t_node_counters := t_node_counters st;
     t_match := t_match st; t_optional_match := t_optional_match st;
     t_return_clause := Some rc; t_additional_return := t_additional_return st |}.

(** A fresh builder: [_ident_count = 0], empty [_node_counters] and AST. *)
Definition empty_tstate : tstate := {|
  t_ident_count := 0; t_node_counters := ∅; t_match := []; t_optional_match := [];
  t_return_clause := None; t_additional_return := [] |}.

(** [_additional_return(name)] *)
Definition _additional_return (st : tstate) (name : string) : tstate :=
  if in_strings name (t_additional_return st) ||
     (match t_return_clause st with Some rc => String.eqb name rc | None => false end)
  then st
  else {| t_ident_count := t_ident_count st; t_node_counters := t_node_counters st;
          t_match := t_match st; t_optional_match := t_optional_match st;
          t_return_clause := t_return_clause st;
          t_additional_return := (t_additional_return st ++ [name])%list |}.

(** [create_ident()] *)
Definition create_ident (st : tstate) : string * tstate :=
  let n := S (t_ident_count st) in
  ("r" ++ Py.str_of_nat n,
   {| t_ident_count := n; t_node_counters := t_node_counters st;
      t_match := t_match st; t_optional_match := t_optional_match st;
      t_return_clause := t_return_clause st; t_additional_return := t_additional_return st |}).

(** What one hop creates: its [rel_reference] key and counter value, the
    node and relationship identifiers, and the pattern [stmt] after the
    hop (the local variables of the loop body). *)
Record hop := {
  h_rel_reference : string;
  h_counter : nat;
  h_rhs_name : string;
  h_rel_ident : string;
  h_stmt : string
}.

Section Loop.
Variable rels_of : node_class -> string -> option rel_def.  (* getattr(cls, part) *)
Variable relation : relation.
Variable subquery_context : bool.
Variable n_parts : nat.                                     (* len(parts) *)

(** The [for index, part in enumerate(parts)] loop, from [index] on, with
    the current [stmt] and [source_class_iterator]; it returns the last
    [stmt] and the hops. *)
Fixpoint traverse_parts (parts : list string) (index : nat) (stmt : string)
  (source_class_iterator : node_class) (st : tstate) : result (string * list hop) * tstate :=
  match parts with
  | [] => (Ok (stmt, []), st)
  | part :: rest =>
      match rels_of source_class_iterator part with
      | None => (Err (ErrAttribute part), st)
      | Some relationship =>
          let target := rd_node_class relationship in
          let rhs_label := cls_label target in
          let rel_reference := cls_repr target ++ "_" ++ part in
          let cnt := S (match t_node_counters st !! rel_reference with
                        | Some n => n | None => 0%nat end) in
          let st := set_counter st rel_reference cnt in
          let rhs_name :=
            match rl_alias relation with
            | Some alias => if Nat.eqb (index + 1) n_parts then alias
                            else Py.lower rhs_label ++ "_" ++ part ++ "_" ++ Py.str_of_nat cnt
            | None => Py.lower rhs_label ++ "_" ++ part ++ "_" ++ Py.str_of_nat cnt
            end in
          let rhs_ident := rhs_name ++ ":" ++ rhs_label in
          let st := if rl_include_in_return relation then _additional_return st rhs_name else st in
          let '(lhs_ident, st) :=
            if String.eqb stmt "" then
              let lhs_label := cls_label source_class_iterator in
              let lhs_name := Py.lower lhs_label in
              let lhs_ident := lhs_name ++ ":" ++ lhs_label in
              if Nat.eqb index 0 then
                (if subquery_context then lhs_name else lhs_ident, set_return_clause st lhs_name)
              else
                (lhs_ident,
                 if rl_include_in_return relation then _additional_return st lhs_name else st)
            else (stmt, st) in
          let '(rel_ident, st) := create_ident st in
          let st := if rl_include_in_return relation then _additional_return st rel_ident else st in
          let stmt' := _rel_helper lhs_ident rhs_ident rel_ident
                         (rd_relation_type relationship) (rd_direction relationship) in
          match traverse_parts rest (S index) stmt' target st with
          | (Err e, st') => (Err e, st')
          | (Ok (last, hops), st') =>
              (Ok (last, {| h_rel_reference := rel_reference; h_counter := cnt;
                            h_rhs_name := rhs_name; h_rel_ident := rel_ident;
                            h_stmt := stmt' |} :: hops), st')
          end
      end
  end.

End Loop.

(** [build_traversal_from_path(relation, source_class)]: the returned
    [rhs_name] (the last hop's), with the hops for the statements below. *)
Definition build_traversal_from_path (rels_of : node_class -> string -> option rel_def)
  (subquery_context : bool) (relation : relation) (source_class : node_class) (st : tstate)
  : result (string * list hop) * tstate :=
  let parts := Py.split_dunder (rl_path relation) in
  match traverse_parts rels_of relation subquery_context (length parts) parts 0 ""
          source_class st with
  | (Err e, st') => (Err e, st')
  | (Ok (stmt, hops), st') =>
      let st'' :=
        if rl_optional relation then
          {| t_ident_count := t_ident_count st'; t_node_counters := t_node_counters st';
             t_match := t_match st'; t_optional_match := (t_optional_match st' ++ [stmt])%list;
             t_return_clause := t_return_clause st'; t_additional_return := t_additional_return st' |}
        else
          {| t_ident_count := t_ident_count st'; t_node_counters := t_node_counters st';
             t_match := (t_match st' ++ [stmt])%list; t_optional_match := t_optional_match st';
             t_return_clause := t_return_clause st'; t_additional_return := t_additional_return st' |} in
      (Ok (match last hops with Some h => h_rhs_name h | None => "" end, hops), st'')
  end.

End Traverse.

(* ------------------------------------------------------------------ *)
(** ** Relationship patterns with properties ([_rel_helper], [_rel_merge_helper]) *)

Module Patterns.
Import Model.

(** [", ".join(f"{key}: {value}" ...)] over [(key, str(value))] pairs. *)
Definition props_str (kvs : dict string) : string :=
  Py.join ", " (map (fun kv => fst kv ++ ": " ++ snd kv) kvs).

(** [_rel_helper(lhs, rhs, ident, relation_type, direction,
    relation_properties)]: the values of [relation_properties] are given
    by their [str]. *)
Definition _rel_helper (lhs rhs ident : string) (relation_type : option string)
  (dir : direction) (relation_properties : dict string) : string :=
  let rel_props :=
    match relation_properties with
    | [] => ""
    | _ => " {" ++ props_str relation_properties ++ "}"
    end in
  let rel_def :=
    match relation_type with
    | None => ""
    | Some t =>
        if String.eqb t "*" then "[*]"
        else "[" ++ ident ++ ":`" ++ t ++ "`" ++ rel_props ++ "]"
    end in
  let stmt :=
    match dir with
    | OUTGOING => "-" ++ rel_def ++ "->"
    | INCOMING => "<-" ++ rel_def ++ "-"
    | EITHER => "-" ++ rel_def ++ "-"
    end in
  let lhs := if Traverse.ends_with_paren lhs then lhs else "(" ++ lhs ++ ")" in
  let rhs := if Traverse.ends_with_paren rhs then rhs else "(" ++ rhs ++ ")" in
  lhs ++ stmt ++ rhs.

(** [stmt.format(x)] for the three direction templates of
    [_rel_merge_helper]. *)
Definition merge_arrow (dir : direction) (x : string) : string :=
  match dir with
  | OUTGOING => "-" ++ x ++ "->"
  | INCOMING => "<-" ++ x ++ "-"
  | EITHER => "-" ++ x ++ "-"
  end.

(** The entries of [relation_properties] whose value is not [None], with
    the [str] of the value. *)
Fixpoint not_none (kvs : dict (option string)) : dict string :=
  match kvs with
  | [] => []
  | (k, Some v) :: rest => (k, v) :: not_none rest
  | (k, None) :: rest => not_none rest
  end.

(** The keys whose value is [None]. *)
Fixpoint none_keys (kvs : dict (option string)) : list string :=
  match kvs with
  | [] => []
  | (k, Some _) :: rest => none_keys rest
  | (k, None) :: rest => k :: none_keys rest
  end.

(** [_rel_merge_helper(lhs, rhs, ident, relation_type, direction,
    relation_properties)]; a value is [None] or the [str] of the value. *)
Definition _rel_merge_helper (lhs rhs ident : string) (relation_type : option string)
  (dir : direction) (relation_properties : dict (option string)) : string :=
  let '(rel_props, rel_none_props) :=
    match relation_properties with
    | [] => ("", "")
    | _ =>
        let rel_props := " {" ++ props_str (not_none relation_properties) ++ "}" in
        let rel_none_props :=
          if existsb (fun kv => match snd kv with None => true | Some _ => false end)
               relation_properties
          then
            let rel_prop_val_str :=
              Py.join ", " (map (fun key => ident ++ "." ++ key ++ "=$" ++ key)
                              (none_keys relation_properties)) in
            " ON CREATE SET " ++ rel_prop_val_str ++ " ON MATCH SET " ++ rel_prop_val_str
          else "" in
        (rel_props, rel_none_props)
    end in
  let stmt :=
    match relation_type with
    | None => merge_arrow dir ""
    | Some t =>
        if String.eqb t "*" then merge_arrow dir "[*]"
        else merge_arrow dir ("[" ++ ident ++ ":`" ++ t ++ "`" ++ rel_props ++ "]")
    end in
  "(" ++ lhs ++ ")" ++ stmt ++ "(" ++ rhs ++ ")" ++ rel_none_props.

End Patterns.

(* ------------------------------------------------------------------ *)
(** ** Node sets with every builder step ([NodeSet], [QueryBuilder.build_ast]) *)

Module Compile.
Import Model Query Render Traverse.

(** The exceptions of the node-set methods modelled here. *)
Inductive xerror :=
| XQuery (e : error)                    (* raised by the query-building code above *)
| XNoSuchProperty (prop : string)       (* ValueError "No such property ..." of order_by *)
| XAttributeError (name : string)       (* AttributeError, [None.strip()] *)
| XNotImplemented                       (* NotImplementedError *)
| XNothingToResolve                     (* RuntimeError "Nothing to resolve ..." *)
| XNotReturned (var : string)           (* RuntimeError "Variable ... is not returned by subquery." *)
| XTraversalExists (key : string).      (* ValueError "Cannot install traversal ..." *)

Inductive xres (A : Type) :=
| XOk (a : A)
| XErr (e : xerror).
Arguments XOk {A} a.
Arguments XErr {A} e.

(** [Python str.isspace()] on one Latin-1 character. *)
Definition is_space (c : ascii) : bool :=
  let n := nat_of_ascii c in
  ((9 <=? n) && (n <=? 13))%nat || ((28 <=? n) && (n <=? 32))%nat ||
  (n =? 133)%nat || (n =? 160)%nat.

Fixpoint lstrip (s : string) : string :=
  match s with
  | EmptyString => EmptyString
  | String c rest => if is_space c then lstrip rest else s
  end.

Fixpoint rstrip (s : string) : string :=
  match s with
  | EmptyString => EmptyString
  | String c rest =>
      let rest' := rstrip rest in
      if String.eqb rest' "" && is_space c then "" else String c rest'
  end.

(** [s.strip()] *)
Definition strip (s : string) : string := rstrip (lstrip s).

(** The empty [QueryAST()]. *)
Definition empty_ast : ast := {|
  a_match := []; a_optional_match := []; a_where := []; a_with_clause := None;
  a_return_clause := None; a_order_by := None; a_skip := None; a_limit := None;
  a_lookup := None; a_additional_return := []; a_is_count := false |}.

Definition ast_match_rc (a : ast) (m : list string) (rc : option string) : ast := {|
  a_match := m; a_optional_match := a_optional_match a; a_where := a_where a;
  a_with_clause := a_with_clause a; a_return_clause := rc; a_order_by := a_order_by a;
  a_skip := a_skip a; a_limit := a_limit a; a_lookup := a_lookup a;
  a_additional_return := a_additional_return a; a_is_count := a_is_count a |}.

Definition ast_where (a : ast) (w : list string) : ast := {|
  a_match := a_match a; a_optional_match := a_optional_match a; a_where := w;
  a_with_clause := a_with_clause a; a_return_clause := a_return_clause a;
  a_order_by := a_order_by a; a_skip := a_skip a; a_limit := a_limit a;
  a_lookup := a_lookup a; a_additional_return := a_additional_return a;
  a_is_count := a_is_count a |}.

Definition ast_with_order (a : ast) (w : option string) (o : option (list string)) : ast := {|
  a_match := a_match a; a_optional_match := a_optional_match a; a_where := a_where a;
  a_with_clause := w; a_return_clause := a_return_clause a; a_order_by := o;
  a_skip := a_skip a; a_limit := a_limit a; a_lookup := a_lookup a;
  a_additional_return := a_additional_return a; a_is_count := a_is_count a |}.

Definition ast_skip_limit (a : ast) (s l : option Z) : ast := {|
  a_match := a_match a; a_optional_match := a_optional_match a; a_where := a_where a;
  a_with_clause := a_with_clause a; a_return_clause := a_return_clause a;
  a_order_by := a_order_by a; a_skip := s; a_limit := l; a_lookup := a_lookup a;
  a_additional_return := a_additional_return a; a_is_count := a_is_count a |}.

(** The [QueryBuilder] state: the AST, [_ident_count], [_node_counters],
    [_place_holder_registry] and [_query_params]. *)
Record qb := {
  qb_ast : ast;
  qb_ident_count : nat;
  qb_node_counters : gmap string nat;
  qb_registry : gmap string nat;
  qb_params : gmap string pyval
}.

Definition new_qb : qb := {|
  qb_ast := empty_ast; qb_ident_count := 0; qb_node_counters := ∅;
  qb_registry := ∅; qb_params := ∅ |}.

Definition set_ast (q : qb) (a : ast) : qb := {|
  qb_ast := a; qb_ident_count := qb_ident_count q; qb_node_counters := qb_node_counters q;
  qb_registry := qb_registry q; qb_params := qb_params q |}.

(** The part of the builder the path resolver reads and writes. *)
Definition to_tstate (q : qb) : tstate := {|
  t_ident_count := qb_ident_count q; t_node_counters := qb_node_counters q;
  t_match := a_match (qb_ast q); t_optional_match := a_optional_match (qb_ast q);
  t_return_clause := a_return_clause (qb_ast q);
  t_additional_return := a_additional_return (qb_ast q) |}.

Definition of_tstate (q : qb) (t : tstate) : qb :=
  let a := qb_ast q in
  {| qb_ast := {| a_match := t_match t; a_optional_match := t_optional_match t;
                  a_where := a_where a; a_with_clause := a_with_clause a;
                  a_return_clause := t_return_clause t; a_order_by := a_order_by a;
                  a_skip := a_skip a; a_limit := a_limit a; a_lookup := a_lookup a;
                  a_additional_return := t_additional_return t; a_is_count := a_is_count a |};
     qb_ident_count := t_ident_count t; qb_node_counters := t_node_counters t;
     qb_registry := qb_registry q; qb_params := qb_params q |}.

(** [build_label(ident, cls)] *)
Definition build_label (ident : string) (cls : node_class) (q : qb) : qb :=
  let a := qb_ast q in
  if negb (truthy_str (a_return_clause a)) &&
     (match a_additional_return a with [] => true | l => negb (in_strings ident l) end)
  then set_ast q (ast_match_rc a (a_match a ++ [("(" ++ ident ++ ":" ++ cls_label cls ++ ")")%string])%list
                   (Some ident))
  else q.

(** The pattern [build_additional_match] writes for one [has()] entry:
    [_rel_helper(lhs=source_ident, rhs=":" + label, ident="", **definition)]. *)
Definition has_pattern (source_ident : string) (d : rel_def) : string :=
  Traverse._rel_helper source_ident (":" ++ cls_label (rd_node_class d)) ""
    (rd_relation_type d) (rd_direction d).

(** [build_additional_match(ident, node_set)]; the values of [must_match]
    and [dont_match] are relationship definitions (dicts), so the
    [ValueError] branch is not reached. *)
Definition build_additional_match (ident : string) (must_match dont_match : dict rel_def)
  (q : qb) : qb :=
  let a := qb_ast q in
  set_ast q (ast_where a (a_where a ++ map (fun kv => has_pattern ident (snd kv)) must_match
                          ++ map (fun kv => ("NOT " ++ has_pattern ident (snd kv))%string) dont_match)%list).

(** [build_order_by(ident, source)] *)
Definition build_order_by (ident : string) (order_by_elements : list string) (q : qb) : qb :=
  let a := qb_ast q in
  if in_strings "?" order_by_elements
  then set_ast q (ast_with_order a (Some (ident ++ ", rand() as r")) (Some ["r"]))
  else set_ast q (ast_with_order a (a_with_clause a)
                    (Some (map (fun p => ident ++ "." ++ p) order_by_elements))).

(** [build_where_stmt(ident, filters, q_filters, source_class)] as
    [build_source] calls it for a [NodeSet], whose [filters] list stays
    empty: only the filter tree is rendered. *)
Definition build_where (ident : string) (cls : node_class) (qf : qnode) (q : qb) : result qb :=
  if Nodes.q_truthy qf then
    match parse_q_filters ident cls qf {| b_registry := qb_registry q; b_params := qb_params q |} with
    | (Err e, _) => Err e
    | (Ok stmts, st) =>
        let a := qb_ast q in
        let a := if String.eqb stmts "" then a else ast_where a (a_where a ++ [stmts])%list in
        Ok {| qb_ast := a; qb_ident_count := qb_ident_count q;
              qb_node_counters := qb_node_counters q;
              qb_registry := b_registry st; qb_params := b_params st |}
    end
  else Ok q.

(** The annotation values [annotate] accepts ([AggregatingFunction]s,
    here [Collect]) and any other object. *)
Inductive vardef :=
| VCollect (input_name : string) (distinct : bool)
| VOther (repr : string).

(** [str(vardef)] ([Collect.__str__]) *)
Definition vardef_str (v : vardef) : string :=
  match v with
  | VCollect n d => if d then "collect(DISTINCT " ++ n ++ ")" else "collect(" ++ n ++ ")"
  | VOther r => r
  end.

(** A [NodeSet] whose [source] is a [StructuredNode] class ([Cls.nodes]
    and the node sets its methods return); node sets over a [Traversal],
    over another [NodeSet] or over a node instance are not modelled. Its
    fields: [q_filters], [must_match],
    [dont_match], [order_by_elements] ([None] while unset),
    [relations_to_fetch], [_extra_results], [_subqueries], [skip] and
    [limit] ([None] while unset). *)
Record nset := {
  n_source : node_class;
  n_q_filters : qnode;
  n_must_match : dict rel_def;
  n_dont_match : dict rel_def;
  n_order_by_elements : option (list string);
  n_relations_to_fetch : list relation;
  n_extra_results : dict vardef;
  n_subqueries : list (string * list string);
  n_skip : option Z;
  n_limit : option Z
}.

Definition new_nset (cls : node_class) : nset := {|
  n_source := cls; n_q_filters := QNode Q_AND false []; n_must_match := [];
  n_dont_match := []; n_order_by_elements := None; n_relations_to_fetch := [];
  n_extra_results := []; n_subqueries := []; n_skip := None; n_limit := None |}.

Definition mk_nset (ns : nset) (must dont : dict rel_def) (o : option (list string))
  (rels : list relation) (extra : dict vardef) (subs : list (string * list string))
  (skip limit : option Z) : nset := {|
  n_source := n_source ns; n_q_filters := n_q_filters ns; n_must_match := must;
  n_dont_match := dont; n_order_by_elements := o; n_relations_to_fetch := rels;
  n_extra_results := extra; n_subqueries := subs; n_skip := skip; n_limit := limit |}.

(** What [build_query] reads from the node set. *)
Definition nset_ctx (ns : nset) (subquery_context : bool) : query_ctx := {|
  q_subqueries := n_subqueries ns;
  q_extra_results := map (fun kv => (fst kv, vardef_str (snd kv))) (n_extra_results ns);
  q_subquery_context := subquery_context |}.

(** The loop of [build_ast] over [relations_to_fetch]. *)
Fixpoint build_relations (rels_of : node_class -> string -> option rel_def)
  (subquery_context : bool) (cls : node_class) (rs : list relation) (q : qb) : result qb :=
  match rs with
  | [] => Ok q
  | r :: rest =>
      match build_traversal_from_path rels_of subquery_context r cls (to_tstate q) with
      | (Err e, _) => Err e
      | (Ok _, t) => build_relations rels_of subquery_context cls rest (of_tstate q t)
      end
  end.

(** [QueryBuilder(ns, subquery_context=...).build_ast()] for a node set
    on a class: the relations to fetch, then the [NodeSet] branch of
    [build_source] with a class source ([build_label],
    [build_additional_match], [build_order_by], [build_where_stmt]), then
    [skip] and [limit]. The [Traversal], nested-[NodeSet] and node-instance
    branches of [build_source] are outside the model. *)
Definition build_ast (rels_of : node_class -> string -> option rel_def)
  (subquery_context : bool) (ns : nset) : result qb :=
  let cls := n_source ns in
  let* q := build_relations rels_of subquery_context cls (n_relations_to_fetch ns) new_qb in
  let ident := Py.lower (cls_label cls) in
  let q := build_label ident cls q in
  let q := build_additional_match ident (n_must_match ns) (n_dont_match ns) q in
  let q := match n_order_by_elements ns with
           | Some e => build_order_by ident e q
           | None => q
           end in
  let* q := build_where ident cls (n_q_filters ns) q in
  Ok (set_ast q (ast_skip_limit (qb_ast q) (n_skip ns) (n_limit ns))).

(** The statement and parameters [QueryBuilder(ns).build_ast().build_query()]
    sends. *)
Definition compile (rels_of : node_class -> string -> option rel_def)
  (subquery_context : bool) (ns : nset) : result (string * gmap string pyval) :=
  let* q := build_ast rels_of subquery_context ns in
  Ok (build_query (nset_ctx ns subquery_context) (qb_ast q), qb_params q).

(** The loop of [order_by] over [props], from the current elements; it
    stops at the first exception, keeping what it appended before. *)
Fixpoint order_by_loop (cls : node_class) (props : list (option string)) (acc : list string)
  : list string * option xerror :=
  match props with
  | [] => (acc, None)
  | None :: _ => (acc, Some (XAttributeError "strip"))
  | Some prop :: rest =>
      let prop := strip prop in
      let '(prop, desc) :=
        match prop with
        | String "-" p => (p, true)
        | _ => (prop, false)
        end in
      match dict_get (cls_props cls) prop with
      | None => (acc, Some (XNoSuchProperty prop))
      | Some property_obj =>
          let prop := match p_kind property_obj with AliasProp t => t | _ => prop end in
          order_by_loop cls rest (acc ++ [(prop ++ (if desc then " DESC" else ""))%string])%list
      end
  end.

(** [NodeSet.order_by(props)]; a [None] argument is [None]. *)
Definition order_by (ns : nset) (props : list (option string)) : nset * option xerror :=
  let should_remove := match props with [None] => true | _ => false end in
  let set o := mk_nset ns (n_must_match ns) (n_dont_match ns) o (n_relations_to_fetch ns)
                 (n_extra_results ns) (n_subqueries ns) (n_skip ns) (n_limit ns) in
  if should_remove then (set (Some []), None)
  else
    let elems := match n_order_by_elements ns with Some e => e | None => [] end in
    if existsb (fun p => match p with Some s => String.eqb s "?" | None => false end) props
    then (set (Some (elems ++ ["?"])%list), None)
    else let '(elems', err) := order_by_loop (n_source ns) props elems in
         (set (Some elems'), err).

(** [BaseSet.__getitem__(slice(start, stop))]: the node set it returns
    (itself, updated). *)
Definition getitem_slice (ns : nset) (start stop : option Z) : nset :=
  let set s l := mk_nset ns (n_must_match ns) (n_dont_match ns) (n_order_by_elements ns)
                   (n_relations_to_fetch ns) (n_extra_results ns) (n_subqueries ns) s l in
  match start, stop with
  | Some a, Some b =>
      if negb (Z.eqb b 0) && negb (Z.eqb a 0) then set (Some a) (Some (b - a)%Z)
      else if negb (Z.eqb b 0) then set (n_skip ns) (Some b)
      else if negb (Z.eqb a 0) then set (Some a) (n_limit ns)
      else ns
  | None, Some b => if negb (Z.eqb b 0) then set (n_skip ns) (Some b) else ns
  | Some a, None => if negb (Z.eqb a 0) then set (Some a) (n_limit ns) else ns
  | None, None => ns
  end.

(** The first argument of [_register_relation_to_fetch]: a path, or
    [Optional(path)]. *)
Inductive rel_arg :=
| RelPath (path : string)
| RelOptional (path : string).

(** [_register_relation_to_fetch(relation_def, alias, include_in_return)] *)
Definition _register_relation_to_fetch (relation_def : rel_arg) (alias : option string)
  (include_in_return : bool) : relation := {|
  rl_path := match relation_def with RelPath p | RelOptional p => p end;
  rl_alias := match alias with
              | Some a => if String.eqb a "" then None else Some a
              | None => None
              end;
  rl_include_in_return := include_in_return;
  rl_optional := match relation_def with RelOptional _ => true | RelPath _ => false end |}.

Definition set_relations (ns : nset) (rels : list relation) : nset :=
  mk_nset ns (n_must_match ns) (n_dont_match ns) (n_order_by_elements ns) rels
    (n_extra_results ns) (n_subqueries ns) (n_skip ns) (n_limit ns).

(** [fetch_relations(relation_names)] *)
Definition fetch_relations (ns : nset) (relation_names : list rel_arg) : nset :=
  set_relations ns (map (fun r => _register_relation_to_fetch r None true) relation_names).

(** [traverse_relations(relation_names, aliased_relation_names)] *)
Definition traverse_relations (ns : nset) (relation_names : list rel_arg)
  (aliased_relation_names : dict rel_arg) : nset :=
  set_relations ns
    (map (fun r => _register_relation_to_fetch r None false) relation_names ++
     map (fun kv => _register_relation_to_fetch (snd kv) (Some (fst kv)) false)
       aliased_relation_names)%list.

(** [NodeSet.has(kwargs)]: [must_match] and [dont_match] are updated
    only when [process_has_args] returns. *)
Definition has (rel_definitions : dict rel_def) (ns : nset) (kwargs : dict pyval)
  : xres nset :=
  match Has.has rel_definitions (n_must_match ns) (n_dont_match ns) kwargs with
  | Err e => XErr (XQuery e)
  | Ok (m, d) => XOk (mk_nset ns m d (n_order_by_elements ns) (n_relations_to_fetch ns)
                        (n_extra_results ns) (n_subqueries ns) (n_skip ns) (n_limit ns))
  end.

(** [register_extra_var(vardef, varname)] *)
Definition register_extra_var (extra : dict vardef) (v : vardef) (varname : option string)
  : xres (dict vardef) :=
  match v with
  | VCollect input_name _ =>
      let key := match varname with
                 | Some n => if String.eqb n "" then input_name else n
                 | None => input_name
                 end in
      XOk (dict_set extra key v)
  | VOther _ => XErr XNotImplemented
  end.

Fixpoint annotate_loop (items : list (option string * vardef)) (extra : dict vardef)
  : dict vardef * option xerror :=
  match items with
  | [] => (extra, None)
  | (varname, v) :: rest =>
      match register_extra_var extra v varname with
      | XErr e => (extra, Some e)
      | XOk extra' => annotate_loop rest extra'
      end
  end.

(** [annotate(vars, aliased_vars)]: the node set with the
    registrations made before an exception, and the exception. *)
Definition annotate (ns : nset) (vars : list vardef) (aliased_vars : dict vardef)
  : nset * option xerror :=
  let '(extra, err) :=
    annotate_loop (map (fun v => (None, v)) vars ++
                   map (fun kv => (Some (fst kv), snd kv)) aliased_vars)%list
      (n_extra_results ns) in
  (mk_nset ns (n_must_match ns) (n_dont_match ns) (n_order_by_elements ns)
     (n_relations_to_fetch ns) extra (n_subqueries ns) (n_skip ns) (n_limit ns), err).

(** [subquery(nodeset, return_set)] *)
Definition subquery (rels_of : node_class -> string -> option rel_def)
  (ns inner : nset) (return_set : list string) : nset * option xerror :=
  match build_ast rels_of true inner with
  | Err e => (ns, Some (XQuery e))
  | Ok q =>
      let a := qb_ast q in
      match List.find (fun var =>
               (match a_return_clause a with
                | Some rc => negb (String.eqb var rc)
                | None => true
                end) &&
               negb (in_strings var (a_additional_return a)) &&
               negb (in_strings var (map fst (n_extra_results inner)))) return_set with
      | Some var => (ns, Some (XNotReturned var))
      | None =>
          (mk_nset ns (n_must_match ns) (n_dont_match ns) (n_order_by_elements ns)
             (n_relations_to_fetch ns) (n_extra_results ns)
             (n_subqueries ns ++ [(build_query (nset_ctx inner true) a, return_set)])%list
             (n_skip ns) (n_limit ns), None)
      end
  end.

Section Subgraph.
(** What [resolve_subgraph] does once its checks pass, not modelled:
    [QueryBuilder(self, with_subgraph=True).build_ast()], [_execute] and
    [_to_subgraph] on each row; each of them may raise. *)
Variable X : Type.
Variable after_checks : nset -> xres (list X).

(** [resolve_subgraph()] *)
Definition resolve_subgraph (ns : nset) : xres (list X) :=
  match n_relations_to_fetch ns with
  | [] => XErr XNothingToResolve
  | r :: _ => if rl_include_in_return r then after_checks ns else XErr XNotImplemented
  end.
End Subgraph.

(** The attributes [NodeSet] and [BaseSet] define on the class. *)
Definition NODESET_CLASS_ATTRS : list string := [
  "query_cls"; "all"; "__iter__"; "__len__"; "__bool__"; "__nonzero__"; "__contains__";
  "__getitem__"; "__init__"; "__await__"; "_get"; "get"; "get_or_none"; "first";
  "first_or_none"; "filter"; "exclude"; "has"; "order_by"; "_register_relation_to_fetch";
  "fetch_relations"; "traverse_relations"; "annotate"; "_to_subgraph"; "resolve_subgraph";
  "subquery"; "__doc__"; "__module__"; "__dict__"; "__weakref__"].

(** What an instance attribute of a fresh node set holds. *)
Inductive attr :=
| ATraversal            (* a [Traversal] installed by [install_traversals] *)
| AOwn.                 (* a value [NodeSet.__init__] assigns *)

Section Install.
(** [hasattr] for the attributes an instance gets from [object] and from
    the interpreter's class machinery beyond [NODESET_CLASS_ATTRS]. *)
Variable object_attr : string -> bool.

Definition nodeset_hasattr (inst : dict attr) (name : string) : bool :=
  in_strings name (map fst inst) || in_strings name NODESET_CLASS_ATTRS || object_attr name.

(** [install_traversals(cls, node_set)] over the names of the class's
    relationship definitions ([lookup_node_class] is assumed to succeed). *)
Fixpoint install_traversals (rel_names : list string) (inst : dict attr) : xres (dict attr) :=
  match rel_names with
  | [] => XOk inst
  | key :: rest =>
      if nodeset_hasattr inst key then XErr (XTraversalExists key)
      else install_traversals rest (dict_set inst key ATraversal)
  end.

(** The instance attributes of [NodeSet(cls)] for a class source. *)
Definition nodeset_init_attrs (rel_names : list string) : xres (dict attr) :=
  match install_traversals rel_names [("source", AOwn); ("source_class", AOwn)] with
  | XErr e => XErr e
  | XOk inst =>
      XOk (fold_left (fun d k => dict_set d k AOwn)
             ["filters"; "q_filters"; "must_match"; "dont_match"; "relations_to_fetch";
              "_extra_results"; "_subqueries"] inst)
  end.
End Install.

End Compile.

(* ------------------------------------------------------------------ *)
(** ** A sample schema for concrete statements *)

Module Sample.
Import Model.

(** [StringProperty]: deflates strings as themselves, refuses others. *)
Definition string_property (db : string) : property := {|
  p_kind := Regular;
  p_deflate := fun v => match v with PyStr _ => Some v | _ => None end;
  p_db_property := db |}.

(** [ArrayProperty(StringProperty())]: [deflate] iterates the value and
    deflates each item with the base property into a list. A list or a
    tuple yields its elements, a string its characters; the other values
    are not iterable and raise. *)
Definition array_property (db : string) : property := {|
  p_kind := ArrayProp;
  p_deflate := fun v =>
    let base := p_deflate (string_property "") in
    match v with
    | PyList l | PyTuple l =>
        match mapM base l with Some ds => Some (PyList ds) | None => None end
    | PyStr s =>
        match mapM base (map (fun c => PyStr (String c EmptyString)) (list_ascii_of_string s)) with
        | Some ds => Some (PyList ds)
        | None => None
        end
    | _ => None
    end;
  p_db_property := db |}.

Definition alias_property (target : string) : property := {|
  p_kind := AliasProp target;
  p_deflate := fun v => Some v;
  p_db_property := "" |}.

(** [class Person(StructuredNode)] with [name], [tags] (stored as
    [tag_list]), and aliases [nick] (to [name]) and [labels] (to [tags]). *)
Definition Person : node_class := {|
  cls_name := "Person";
  cls_repr := "<class 'Person'>";
  cls_label := "Person";
  cls_props := [("name", string_property ""); ("tags", array_property "tag_list");
                ("nick", alias_property "name"); ("labels", alias_property "tags")] |}.

(** [friends = RelationshipTo("Person", "FRIEND")] on [Person]: the
    [getattr(cls, part)] of the path resolver. *)
Definition person_rels (c : node_class) (part : string) : option rel_def :=
  if String.eqb part "friends" then
    Some {| rd_node_class := Person; rd_direction := OUTGOING;
            rd_relation_type := Some "FRIEND" |}
  else None.

(** [class Shouter(StructuredNode)] with [__label__ = "PERSON"], and the
    relationships [Person.friends = RelationshipTo("Shouter", "FRIEND")] and
    [Shouter.friends = RelationshipTo("Person", "FRIEND")]. *)
Definition Shouter : node_class := {|
  cls_name := "Shouter";
  cls_repr := "<class 'Shouter'>";
  cls_label := "PERSON";
  cls_props := [] |}.

Definition mixed_rels (c : node_class) (part : string) : option rel_def :=
  if String.eqb part "friends" then
    Some {| rd_node_class := if String.eqb (cls_name c) "Person" then Shouter else Person;
            rd_direction := OUTGOING; rd_relation_type := Some "FRIEND" |}
  else None.

(** [Person.nodes]: a fresh node set on [Person]. *)
Definition person_nodes : Compile.nset := Compile.new_nset Person.

(** [Person.defined_properties(properties=False, rels=True, aliases=False)]. *)
Definition person_rel_defs : dict rel_def :=
  [("friends", {| rd_node_class := Person; rd_direction := OUTGOING;
                  rd_relation_type := Some "FRIEND" |})].

End Sample.

(* ================================================================== *)
(** * Properties *)

(* ------------------------------------------------------------------ *)
(** ** Placeholder names *)

Module RegistryFacts.
Import Registry.

Fixpoint underscore_free (s : string) : bool :=
  match s with
  | EmptyString => true
  | String c rest => negb (Ascii.eqb c "_") && underscore_free rest
  end.

Lemma underscore_free_app_us (x y : string) :
  underscore_free (x ++ String "_" y) = false.
Proof. induction x as [|c x IH]; simpl; [reflexivity|]. rewrite IH. apply andb_false_r. Qed.

Lemma underscore_free_digits (d : Decimal.uint) :
  underscore_free (NilEmpty.string_of_uint d) = true.
Proof. induction d; simpl; auto. Qed.

Lemma split_at_last_us (a1 a2 d1 d2 : string) :
  underscore_free d1 = true -> underscore_free d2 = true ->
  a1 ++ String "_" d1 = a2 ++ String "_" d2 -> a1 = a2 /\ d1 = d2.
Proof.
  revert a2. induction a1 as [|c1 a1 IH]; intros [|c2 a2] H1 H2 E; simpl in E.
  - injection E as ->. auto.
  - injection E as <- E. subst d1. rewrite underscore_free_app_us in H1. discriminate.
  - injection E as -> E. subst d2. rewrite underscore_free_app_us in H2. discriminate.
  - injection E as -> E. destruct (IH a2 H1 H2 E) as [-> ->]. auto.
Qed.

Lemma str_of_nat_inj (n m : nat) : Py.str_of_nat n = Py.str_of_nat m -> n = m.
Proof.
  unfold Py.str_of_nat. intros E.
  apply (f_equal NilEmpty.uint_of_string) in E. rewrite !NilEmpty.usu in E.
  injection E as E. now apply DecimalNat.Unsigned.to_uint_inj.
Qed.

(** Placeholder names determine their key and their occurrence count. *)
Lemma place_holder_name_inj (k1 k2 : string) (n1 n2 : nat) :
  k1 ++ "_" ++ Py.str_of_nat n1 = k2 ++ "_" ++ Py.str_of_nat n2 -> k1 = k2 /\ n1 = n2.
Proof.
  simpl. intros E.
  apply split_at_last_us in E; try apply underscore_free_digits.
  destruct E as [-> E]. split; [reflexivity|]. now apply str_of_nat_inj.
Qed.


Section Sequence.
Context {V : Type}.

Lemma base_register (k k' : string) (reg : gmap string nat) :
  base (snd (register_place_holder k reg)) k' =
  (if String.eqb k k' then S (base reg k) else base reg k').
Proof.
  unfold base, register_place_holder; simpl.
  destruct (String.eqb_spec k k') as [<-|Hne].
  - rewrite lookup_insert_eq. destruct (reg !! k); reflexivity.
  - rewrite lookup_insert_ne by congruence. reflexivity.
Qed.

Lemma register_place_holder_name (k : string) (reg : gmap string nat) :
  fst (register_place_holder k reg) = k ++ "_" ++ Py.str_of_nat (S (base reg k)).
Proof. unfold register_place_holder, base. destruct (reg !! k); reflexivity. Qed.

Lemma register_all_length (kvs : list (string * V)) reg params :
  length (fst (fst (register_all kvs reg params))) = length kvs.
Proof.
  revert reg params. induction kvs as [|[k v] rest IH]; intros reg params; [reflexivity|].
  cbn [register_all]. destruct (register_place_holder k reg) as [ph reg1].
  specialize (IH reg1 (<[ph:=v]> params)).
  destruct (register_all rest reg1 _) as [[names reg2] params2]. simpl in *. lia.
Qed.

(** Every call returns [key + "_" + count], the count being the number of
    registrations of [key] so far, this one included. *)
Lemma register_all_name_form (kvs : list (string * V)) reg params i k v :
  kvs !! i = Some (k, v) ->
  fst (fst (register_all kvs reg params)) !! i =
    Some (k ++ "_" ++ Py.str_of_nat
            (base reg k + count_occ string_dec (map fst (take (S i) kvs)) k)).
Proof.
  revert reg params i. induction kvs as [|[k0 v0] rest IH]; intros reg params i Hi;
    [discriminate|].
  simpl. destruct (register_all rest _ _) as [[names reg2] params2] eqn:E. simpl.
  destruct i as [|i]; simpl in Hi |- *.
  - injection Hi as -> ->. simpl.
    destruct (string_dec k k) as [_|]; [|congruence].
    unfold base. destruct (reg !! k); simpl; rewrite ?Nat.add_1_r; reflexivity.
  - specialize (IH (<[k0:=match reg !! k0 with Some n => S n | None => 1%nat end]> reg)
                   (<[k0 ++ "_" ++ Py.str_of_nat
                        (match reg !! k0 with Some n => S n | None => 1%nat end) := v0]> params)
                   i Hi).
    rewrite E in IH. simpl in IH. rewrite IH.
    pose proof (base_register k0 k reg) as B. unfold register_place_holder in B. simpl in B.
    rewrite B. destruct (string_dec k0 k) as [->|Hne].
    + rewrite String.eqb_refl.
      apply (f_equal (fun n => Some (k ++ "_" ++ Py.str_of_nat n))). lia.
    + destruct (String.eqb_spec k0 k); [congruence|]. reflexivity.
Qed.

(** Every returned name carries a count above the registry's count for its
    key before the sequence. *)
Lemma register_all_names_above (kvs : list (string * V)) reg params :
  Forall (fun n => exists k c, n = k ++ "_" ++ Py.str_of_nat c /\ base reg k < c)
         (fst (fst (register_all kvs reg params))).
Proof.
  revert reg params. induction kvs as [|[k0 v0] rest IH]; intros reg params; [constructor|].
  pose proof (register_place_holder_name k0 reg) as Hn.
  pose proof (fun k => base_register k0 k reg) as Hb.
  cbn [register_all]. revert Hn Hb.
  destruct (register_place_holder k0 reg) as [ph reg1]. cbn [fst snd]. intros Hn Hb.
  specialize (IH reg1 (<[ph:=v0]> params)). revert IH.
  destruct (register_all rest reg1 _) as [[names reg2] params2]. cbn [fst snd]. intros IH.
  constructor.
  - exists k0, (S (base reg k0)). split; [exact Hn|lia].
  - eapply Forall_impl; [exact IH|]. intros n (k & c & -> & Hc).
    exists k, c. split; [reflexivity|]. specialize (Hb k).
    destruct (String.eqb_spec k0 k) as [->|]; lia.
Qed.

Lemma register_all_nodup (kvs : list (string * V)) reg params :
  NoDup (fst (fst (register_all kvs reg params))).
Proof.
  revert reg params. induction kvs as [|[k0 v0] rest IH]; intros reg params; [constructor|].
  pose proof (register_place_holder_name k0 reg) as Hn.
  pose proof (fun k => base_register k0 k reg) as Hb.
  pose proof (fun p => register_all_names_above rest (snd (register_place_holder k0 reg)) p)
    as Ha.
  cbn [register_all]. revert Hn Hb Ha.
  destruct (register_place_holder k0 reg) as [ph reg1]. cbn [fst snd]. intros Hn Hb Ha.
  specialize (IH reg1 (<[ph:=v0]> params)). specialize (Ha (<[ph:=v0]> params)).
  revert IH Ha.
  destruct (register_all rest reg1 _) as [[names reg2] params2]. cbn [fst snd]. intros IH Ha.
  constructor; [|exact IH].
  intros Hin. rewrite Forall_forall in Ha. destruct (Ha ph Hin) as (k & c & Hph & Hc).
  rewrite Hn in Hph. apply RegistryFacts.place_holder_name_inj in Hph as [<- <-].
  specialize (Hb k0). rewrite String.eqb_refl in Hb. lia.
Qed.

Lemma register_all_params_frame (kvs : list (string * V)) reg params x :
  x ∉ fst (fst (register_all kvs reg params)) ->
  snd (register_all kvs reg params) !! x = params !! x.
Proof.
  revert reg params. induction kvs as [|[k0 v0] rest IH]; intros reg params; [reflexivity|].
  cbn [register_all].
  destruct (register_place_holder k0 reg) as [ph reg1].
  specialize (IH reg1 (<[ph:=v0]> params)). revert IH.
  destruct (register_all rest reg1 _) as [[names reg2] params2]. cbn [fst snd]. intros IH Hx.
  rewrite IH by set_solver. apply lookup_insert_ne. set_solver.
Qed.

Lemma register_all_params (kvs : list (string * V)) reg params i k v n :
  kvs !! i = Some (k, v) ->
  fst (fst (register_all kvs reg params)) !! i = Some n ->
  snd (register_all kvs reg params) !! n = Some v.
Proof.
  revert reg params i. induction kvs as [|[k0 v0] rest IH]; intros reg params i Hi Hn;
    [discriminate|].
  pose proof (register_all_nodup ((k0, v0) :: rest) reg params) as Hnd.
  pose proof (fun p => register_all_params_frame rest (snd (register_place_holder k0 reg)) p)
    as Hf.
  revert Hn Hnd Hf. cbn [register_all].
  destruct (register_place_holder k0 reg) as [ph reg1]. cbn [fst snd].
  specialize (IH reg1 (<[ph:=v0]> params)).
  specialize (register_all_params_frame rest reg1 (<[ph:=v0]> params)) as Hf'.
  revert IH Hf'.
  destruct (register_all rest reg1 _) as [[names reg2] params2]. cbn [fst snd].
  intros IH Hf' Hn Hnd _.
  destruct i as [|i]; simpl in Hi, Hn.
  - injection Hi as -> ->. injection Hn as <-. inversion Hnd; subst.
    rewrite Hf' by assumption. apply lookup_insert_eq.
  - eapply IH; eassumption.
Qed.

End Sequence.

End RegistryFacts.

(* ------------------------------------------------------------------ *)
(** ** Claims *)

(** C8: within one compilation (fresh registry, empty parameter table),
    the [i]-th call to [_register_place_holder] with key [k] returns
    [k + "_" + str(n)], [n] the number of calls with key [k] so far (this
    one included); the names returned are pairwise distinct, and the
    parameter table binds every returned name to the value registered
    with it, so no two registered values share a placeholder name. *)
Theorem register_place_holder_unique {V : Type} (kvs : list (string * V)) :
  let '(names, _, params) := Registry.register_all kvs ∅ ∅ in
  length names = length kvs /\ NoDup names /\
  forall i k v, kvs !! i = Some (k, v) ->
    let n := k ++ "_" ++ Py.str_of_nat (count_occ string_dec (map fst (take (S i) kvs)) k) in
    names !! i = Some n /\ params !! n = Some v.
Proof.
  pose proof (RegistryFacts.register_all_length kvs ∅ ∅) as Hl.
  pose proof (RegistryFacts.register_all_nodup kvs ∅ ∅) as Hnd.
  pose proof (RegistryFacts.register_all_name_form kvs ∅ ∅) as Hf.
  pose proof (RegistryFacts.register_all_params kvs ∅ ∅) as Hp.
  destruct (Registry.register_all kvs ∅ ∅) as [[names reg] params]. cbn [fst snd] in *.
  split; [exact Hl|]. split; [exact Hnd|].
  intros i k v Hi. specialize (Hf i k v Hi). unfold Registry.base in Hf.
  rewrite lookup_empty in Hf. simpl in Hf. split; [exact Hf|]. eapply Hp; eassumption.
Qed.

Module FilterClaims.
Import Model Filters Render.

(** C2 (evaluated): every operator of [_REGEX_OPERATOR_TABLE], [iregex]
    included, escapes the deflated string before formatting it into its
    template ([iregex] and [iexact] share the template ["(?i){}"], which is a
    value of [_STRING_REGEX_OPERATOR_TABLE]); the raw [regex] operator
    ([=~]) passes the deflated value through unchanged. *)
Theorem regex_operators_escape (p : property) (key : string) (v : pyval) (s : string) :
  p_deflate p v = Some (PyStr s) ->
  (forall opname, In opname ["iexact"; "contains"; "icontains"; "startswith";
                             "istartswith"; "endswith"; "iendswith"; "iregex"] ->
     exists t, dict_get OPERATOR_TABLE opname = Some t /\
       transform_operator_to_filter t key v p =
         Ok (_SPECIAL_OPERATOR_REGEX, PyStr (Py.format1 t (Py.re_escape s)))) /\
  dict_get OPERATOR_TABLE "regex" = Some _SPECIAL_OPERATOR_REGEX /\
  transform_operator_to_filter _SPECIAL_OPERATOR_REGEX key v p =
    Ok (_SPECIAL_OPERATOR_REGEX, PyStr s).
Proof.
  intros Hd. split; [|split; [reflexivity|]].
  - intros opname Hin.
    repeat (destruct Hin as [<-|Hin]; [eexists; split; [reflexivity|];
      unfold transform_operator_to_filter, transform_regex_operator_to_filter;
      simpl; rewrite Hd; reflexivity|]).
    destruct Hin.
  - unfold transform_operator_to_filter. simpl. rewrite Hd. reflexivity.
Qed.

Lemma regex_operators_escape_witness :
  transform_operator_to_filter "(?i){}" "name__iregex" (PyStr "a.b") (Sample.string_property "")
  = Ok ("=~", PyStr "(?i)a\.b").
Proof.
  destruct (regex_operators_escape (Sample.string_property "") "name__iregex"
              (PyStr "a.b") "a.b" eq_refl) as [H _].
  destruct (H "iregex" ltac:(simpl; tauto)) as (t & Ht & E).
  vm_compute in Ht. injection Ht as <-. rewrite E. reflexivity.
Defined.

(** C3: an entry whose property is an [AliasProperty] is deflated by the
    canonical property it aliases, keeps the operator of the table
    untransformed, and is stored under the canonical property's database
    name. *)
Theorem alias_filter_redirects (cls : node_class) (key : string) (value : pyval)
  (prop operator target : string) (alias canonical : property) (d : pyval)
  (rest : dict pyval) (output : dict (string * pyval)) :
  split_filter_key key = Ok (prop, operator) ->
  dict_get (cls_props cls) prop = Some alias ->
  p_kind alias = AliasProp target ->
  dict_get (cls_props cls) target = Some canonical ->
  p_deflate canonical value = Some d ->
  process_filter_args cls ((key, value) :: rest) output =
  process_filter_args cls rest
    (dict_set output (get_db_property_name canonical target) (operator, d)).
Proof.
  intros Hs Hp Hk Ht Hd. simpl. unfold process_filter_arg.
  rewrite Hs. simpl. rewrite Hp, Hk, Ht, Hd. simpl. rewrite Ht. reflexivity.
Qed.

Lemma alias_filter_redirects_witness :
  process_filter_args Sample.Person [("labels__in", PyList [PyStr "x"])] [] =
  Ok [("tag_list", ("IN", PyList [PyStr "x"]))].
Proof.
  rewrite (alias_filter_redirects Sample.Person "labels__in" (PyList [PyStr "x"])
             "labels" "IN" "tags" (Sample.alias_property "tags")
             (Sample.array_property "tag_list") (PyList [PyStr "x"]) [] []);
    reflexivity.
Defined.





(** C7 (counterexample): [labels] aliases the array property [tags]; the
    [in] filter on it is rendered as a direct membership test, not as the
    existential [any(...)] form, and the value is deflated as a whole by the
    canonical property. *)
Lemma alias_of_array_in_rendered_as_membership :
  fst (parse_leaf "n" Sample.Person "labels__in" (PyList [PyStr "x"]) empty_builder)
    = Ok ["n.tag_list IN $n_tag_list_1"] /\
  b_params (snd (parse_leaf "n" Sample.Person "labels__in" (PyList [PyStr "x"])
                   empty_builder)) !! "n_tag_list_1" = Some (PyList [PyStr "x"]).
Proof. split; vm_compute; reflexivity. Qed.

(** [key.rsplit("__")] splits at the rightmost separator: a property whose
    name ends in an underscore takes the extra underscore. *)
Lemma split_filter_key_rightmost :
  split_filter_key "type___in" = Ok ("type_", "IN") /\
  split_filter_key "flag___isnull" = Ok ("flag_", "IS NULL") /\
  split_filter_key "a__b__in" = Err (ErrUnpack "a__b__in").
Proof. split; [|split]; vm_compute; reflexivity. Qed.

(** C7 (amended): an [in] entry of a filter tree on a declared property
    that is not an alias, with a list or tuple value, is rendered
    - for an [ArrayProperty] as [any(x IN ident.prop WHERE x IN $ph)], the
      whole value deflated once by the array property;
    - otherwise as [ident.prop IN $ph], the value being the list of the
      elements deflated one by one;
    where [prop] is the database name and [ph] the freshly registered
    placeholder for [ident_prop]. *)
Theorem in_filter_rendering (ident : string) (cls : node_class) (key prop : string)
  (p : property) (value : pyval) (items : list pyval) (st : builder) :
  split_filter_key key = Ok (prop, _SPECIAL_OPERATOR_IN) ->
  dict_get (cls_props cls) prop = Some p ->
  (value = PyList items \/ value = PyTuple items) ->
  let db := get_db_property_name p prop in
  let '(ph, st0) := register (ident ++ "_" ++ db) st in
  (p_kind p = ArrayProp -> forall d, p_deflate p value = Some d ->
     parse_leaf ident cls key value st =
       (Ok ["any(x IN " ++ ident ++ "." ++ db ++ " WHERE x IN $" ++ ph ++ ")"],
        {| b_registry := b_registry st0; b_params := <[ph := d]> (b_params st0) |})) /\
  (p_kind p = Regular -> forall ds, mapM (p_deflate p) items = Some ds ->
     parse_leaf ident cls key value st =
       (Ok [ident ++ "." ++ db ++ " IN $" ++ ph],
        {| b_registry := b_registry st0; b_params := <[ph := PyList ds]> (b_params st0) |})).
Proof.
  intros Hs Hp Hv db.
  destruct (register (ident ++ "_" ++ db) st) as [ph st0] eqn:Hr.
  unfold parse_leaf, process_filter_args, process_filter_arg.
  rewrite Hs. simpl. rewrite Hp.
  split; intros Hk.
  - intros d Hd.
    unfold transform_operator_to_filter, transform_in_operator_to_filter. simpl.
    rewrite Hk.
    destruct Hv as [-> | ->]; rewrite Hd; cbn [bind fst snd];
      rewrite Hp; cbn [bind leaf_statements in_strings existsb];
      cbn [fst snd]; change (get_db_property_name p prop) with db; rewrite Hr; reflexivity.
  - intros ds Hds.
    unfold transform_operator_to_filter, transform_in_operator_to_filter. simpl.
    rewrite Hk.
    destruct Hv as [-> | ->]; rewrite Hds; cbn [bind fst snd];
      rewrite Hp; cbn [bind leaf_statements in_strings existsb];
      cbn [fst snd]; change (get_db_property_name p prop) with db; rewrite Hr; reflexivity.
Qed.

Lemma in_filter_rendering_witness :
  parse_leaf "n" Sample.Person "tags__in" (PyList [PyStr "x"]) empty_builder =
    (Ok ["any(x IN n.tag_list WHERE x IN $n_tag_list_1)"],
     {| b_registry := <["n_tag_list" := 1%nat]> ∅;
        b_params := <["n_tag_list_1" := PyList [PyStr "x"]]> ∅ |}).
Proof.
  pose proof (in_filter_rendering "n" Sample.Person "tags__in" "tags"
                (Sample.array_property "tag_list") (PyList [PyStr "x"]) [PyStr "x"]
                empty_builder eq_refl eq_refl (or_introl eq_refl)) as H.
  simpl in H. destruct H as [H _]. exact (H eq_refl (PyList [PyStr "x"]) eq_refl).
Defined.

(** Relationship filters ([Traversal.match]) are rendered by
    [build_where_stmt], which writes every non-unary operator between the
    property and the placeholder: the array [in] template is emitted with
    its fields unformatted. *)
Lemma traversal_array_in_template_unformatted :
  fst (build_where_stmt_rows "r1"
         [[("tag_list", (_SPECIAL_OPERATOR_ARRAY_IN, PyList [PyStr "x"]))]] empty_builder)
  = " r1.tag_list any(x IN {ident}.{prop} WHERE x IN {val}) $r1_tag_list_1".
Proof. vm_compute. reflexivity. Qed.

End FilterClaims.

Lemma register_place_holder_unique_witness :
  fst (fst (Registry.register_all [("n_name", 1%Z); ("n_age", 7%Z); ("n_name", 2%Z)] ∅ ∅))
    !! 2%nat = Some "n_name_2".
Proof.
  pose proof (register_place_holder_unique [("n_name", 1%Z); ("n_age", 7%Z); ("n_name", 2%Z)])
    as H.
  destruct (Registry.register_all _ ∅ ∅) as [[names reg] params]. cbn [fst snd].
  destruct H as (_ & _ & H). exact (proj1 (H 2%nat "n_name" 2%Z eq_refl)).
Defined.

(* ------------------------------------------------------------------ *)
(** ** Count mode *)

Module CountClaims.
Import Model Query.

Lemma string_app_assoc (x y z : string) : (x ++ y) ++ z = x ++ y ++ z.
Proof. induction x as [|c x IH]; [reflexivity|]. exact (f_equal (String c) IH). Qed.

Lemma string_app_empty_r (x : string) : x ++ "" = x.
Proof. induction x as [|c x IH]; [reflexivity|]. exact (f_equal (String c) IH). Qed.

(** C4: the statement [_count] renders is the head of the query, a WITH
    clause carrying the primary identifier followed by SKIP (when [skip]
    is truthy) and LIMIT (when [limit] is truthy), the CALL blocks, and
    RETURN with the subquery variables, [count(...)] and the annotations:
    pagination appears once, in the WITH clause; nothing follows the
    RETURN list (no ORDER BY, SKIP or LIMIT), and neither the order-by
    items nor the additional-return list of the AST occur. *)
Theorem count_query_paginates_once (ctx : query_ctx) (a : ast) :
  let rc := fmt_opt (a_return_clause a) in
  let skip := if truthy_int (a_skip a)
              then " SKIP " ++ str_of_Z (match a_skip a with Some z => z | None => 0 end)%Z
              else "" in
  let limit := if truthy_int (a_limit a)
               then " LIMIT " ++ str_of_Z (match a_limit a with Some z => z | None => 0 end)%Z
               else "" in
  count_query ctx a =
    query_head a ++ with_part (Some (rc ++ skip ++ limit)) ++
    calls_part ctx (Some ("count(" ++ rc ++ ")")) ++
    " RETURN " ++ Py.join ", " (return_items ctx (Some ("count(" ++ rc ++ ")")) []).
Proof.
  intros rc skip limit.
  unfold count_query, build_query, count_ast, order_part, skip_part, limit_part. cbn.
  rewrite !andb_false_r, !string_app_empty_r.
  unfold skip, limit.
  destruct (truthy_int (a_skip a)), (truthy_int (a_limit a));
    rewrite ?string_app_empty_r, ?string_app_assoc; reflexivity.
Qed.

End CountClaims.

(* ------------------------------------------------------------------ *)
(** ** Terminal operations *)

Module TerminalClaims.
Import Model Render Query Nodes.

(** An annotated node set ([annotate(tags_c=Collect("t"))]): its rows have
    two columns. *)
Definition annotated : node_set :=
  {| ns_source := Sample.Person; ns_q_filters := QNode Q_AND false []; ns_skip := None;
     ns_limit := None; ns_extra_results := [("tags_c", "collect(t)")] |}.

(** C5 (counterexample): when the single row returned has two columns,
    [get] returns the whole row, not a sole value. *)
Lemma get_single_row_two_columns :
  snd (get (fun _ _ => [[PyObj "person"; PyList [PyStr "x"]]]) annotated
         [("name", PyStr "bob")]) =
  Ok (Row [PyObj "person"; PyList [PyStr "x"]]).
Proof. vm_compute. reflexivity. Qed.

Lemma get_node_set (db : string -> gmap string pyval -> list (list pyval))
  (ns : node_set) (kwargs : dict pyval) :
  fst (get db ns kwargs) = fst (_get db ns (Some 2%Z) kwargs).
Proof. unfold get. destruct (_get db ns (Some 2%Z) kwargs). reflexivity. Qed.

Lemma first_node_set (db : string -> gmap string pyval -> list (list pyval))
  (ns : node_set) (kwargs : dict pyval) :
  fst (first db ns kwargs) = fst (_get db ns (Some 1%Z) kwargs).
Proof. unfold first. destruct (_get db ns (Some 1%Z) kwargs). reflexivity. Qed.

(** C5 (amended): [get] sets the node set's limit to 2, so the compiled
    AST has limit 2 (rendered as [LIMIT 2]); with the rows the database
    returns, two or more rows raise [MultipleNodesReturned], no row raises
    [DoesNotExist], and a single row gives its value when it has one
    column and the whole row otherwise. *)
Theorem get_outcomes (db : string -> gmap string pyval -> list (list pyval))
  (ns : node_set) (kwargs : dict pyval) :
  let '(ns', r) := get db ns kwargs in
  ns_limit ns' = Some 2%Z /\
  match build_ast ns' with
  | Err e => r = Err e
  | Ok (a, params) =>
      a_limit a = Some 2%Z /\ limit_part a = " LIMIT 2" /\
      let rows := db (build_query (ns_ctx ns') a) params in
      ((2 <= length rows)%nat -> r = Err ErrMultipleNodesReturned) /\
      (rows = [] -> r = Err ErrDoesNotExist) /\
      (forall row, rows = [row] ->
         r = Ok (if Nat.eqb (length row) 1 then Value (hd PyNone row) else Row row))
  end.
Proof.
  unfold get, _get. cbn [truthy_int negb Z.eqb].
  set (ns2 := {| ns_source := _ |}).
  assert (Hl : ns_limit ns2 = Some 2%Z) by reflexivity.
  destruct (build_ast ns2) as [[a params]|e] eqn:Hb; cbv beta iota zeta;
    rewrite ?Hb; [|split; reflexivity].
  assert (Ha : a_limit a = Some 2%Z).
  { unfold build_ast in Hb. destruct (if q_truthy _ then _ else _) as [w st].
    destruct w; [|discriminate]. injection Hb as <- _. reflexivity. }
  assert (Hc : a_is_count a = false).
  { unfold build_ast in Hb. destruct (if q_truthy _ then _ else _) as [w st].
    destruct w; [|discriminate]. injection Hb as <- _. reflexivity. }
  split; [exact Hl|]. split; [exact Ha|].
  split; [unfold limit_part; rewrite Ha, Hc; reflexivity|].
  set (rows := db _ params).
  split; [|split].
  - intros H. unfold execute_rows.
    destruct rows as [|r0 [|r1 rest]] eqn:Er; simpl in H; [lia|lia|].
    destruct (Nat.eqb (length r0) 1); reflexivity.
  - intros ->. reflexivity.
  - intros row ->. unfold execute_rows.
    destruct (Nat.eqb (length row) 1); reflexivity.
Qed.

Lemma get_outcomes_witness :
  snd (get (fun _ _ => [[PyObj "person"]]) (new_node_set Sample.Person)
         [("name", PyStr "bob")]) = Ok (Value (PyObj "person")).
Proof.
  pose proof (get_outcomes (fun _ _ => [[PyObj "person"]]) (new_node_set Sample.Person)
                [("name", PyStr "bob")]) as H.
  vm_compute in H. destruct H as (_ & _ & _ & _ & _ & H).
  vm_compute. exact (H [PyObj "person"] eq_refl).
Defined.

Lemma get_or_none_node_set (db : string -> gmap string pyval -> list (list pyval))
  (ns : node_set) (kwargs : dict pyval) :
  fst (get_or_none db ns kwargs) = fst (get db ns kwargs).
Proof. unfold get_or_none. destruct (get db ns kwargs). reflexivity. Qed.

Lemma first_or_none_node_set (db : string -> gmap string pyval -> list (list pyval))
  (ns : node_set) (kwargs : dict pyval) :
  fst (first_or_none db ns kwargs) = fst (first db ns kwargs).
Proof. unfold first_or_none. destruct (first db ns kwargs). reflexivity. Qed.

(** What compiling a node set with a non-empty filter tree produces. *)
Definition compiled_with (ns : node_set) (q : qnode) (limit : option Z) : Prop :=
  let ident := Py.lower (cls_label (ns_source ns)) in
  match parse_q_filters ident (ns_source ns) q empty_builder with
  | (Ok w, st) => exists a, build_ast ns = Ok (a, b_params st) /\ a_limit a = limit /\
                   a_where a = (if String.eqb w "" then [] else [w])
  | (Err e, _) => build_ast ns = Err e
  end.

Lemma build_ast_compiled_with (ns : node_set) :
  q_truthy (ns_q_filters ns) = true ->
  compiled_with ns (ns_q_filters ns) (ns_limit ns).
Proof.
  intros Hq. unfold compiled_with, build_ast. rewrite Hq.
  destruct (parse_q_filters _ _ _ _) as [[w|e] st]; [|reflexivity].
  eexists. split; [reflexivity|]. split; reflexivity.
Qed.

Lemma _get_node_set (db : string -> gmap string pyval -> list (list pyval))
  (ns : node_set) (kwargs : dict pyval) (l : Z) :
  kwargs <> [] -> l <> 0%Z ->
  let ns' := fst (_get db ns (Some l) kwargs) in
  ns_source ns' = ns_source ns /\
  ns_q_filters ns' = q_wrap (q_and (ns_q_filters ns) (q_of_kwargs kwargs)) /\
  ns_limit ns' = Some l.
Proof.
  intros Hk Hl. unfold _get. cbn [truthy_int].
  destruct (Z.eqb_spec l 0) as [|_]; [contradiction|]. cbn [negb].
  destruct kwargs as [|kv kwargs]; [contradiction|].
  destruct (build_ast _) as [[a params]|e]; repeat split.
Qed.

(** C10: [get], [get_or_none], [first] and [first_or_none] with filter
    arguments leave the node set with the filters AND-combined into its
    filter tree and its limit set to 2 ([get], [get_or_none]) or 1
    ([first], [first_or_none]), whatever the outcome of the call; the next
    compilation of that node set renders the combined tree in its WHERE
    clause and carries that limit. *)
Theorem terminal_ops_persist_filters
  (db : string -> gmap string pyval -> list (list pyval))
  (ns : node_set) (kwargs : dict pyval) :
  kwargs <> [] ->
  let q := q_wrap (q_and (ns_q_filters ns) (q_of_kwargs kwargs)) in
  (forall ns', ns' = fst (get db ns kwargs) \/ ns' = fst (get_or_none db ns kwargs) ->
     ns_source ns' = ns_source ns /\ ns_q_filters ns' = q /\ ns_limit ns' = Some 2%Z /\
     compiled_with ns' q (Some 2%Z)) /\
  (forall ns', ns' = fst (first db ns kwargs) \/ ns' = fst (first_or_none db ns kwargs) ->
     ns_source ns' = ns_source ns /\ ns_q_filters ns' = q /\ ns_limit ns' = Some 1%Z /\
     compiled_with ns' q (Some 1%Z)).
Proof.
  intros Hk q. subst q. split; intros ns' Hns'.
  - assert (E : ns' = fst (_get db ns (Some 2%Z) kwargs)).
    { rewrite <- get_node_set. destruct Hns' as [->| ->]; [reflexivity|].
      apply get_or_none_node_set. }
    subst ns'. destruct (_get_node_set db ns kwargs 2 Hk ltac:(lia)) as (Hs & Hq & Hl).
    split; [exact Hs|]. split; [exact Hq|]. split; [exact Hl|].
    pose proof (build_ast_compiled_with (fst (_get db ns (Some 2%Z) kwargs))) as Hc.
    rewrite Hq, Hl in Hc. apply Hc. reflexivity.
  - assert (E : ns' = fst (_get db ns (Some 1%Z) kwargs)).
    { rewrite <- first_node_set. destruct Hns' as [->| ->]; [reflexivity|].
      apply first_or_none_node_set. }
    subst ns'. destruct (_get_node_set db ns kwargs 1 Hk ltac:(lia)) as (Hs & Hq & Hl).
    split; [exact Hs|]. split; [exact Hq|]. split; [exact Hl|].
    pose proof (build_ast_compiled_with (fst (_get db ns (Some 1%Z) kwargs))) as Hc.
    rewrite Hq, Hl in Hc. apply Hc. reflexivity.
Qed.

Lemma terminal_ops_persist_filters_witness :
  ns_limit (fst (first (fun _ _ => []) (new_node_set Sample.Person) [("name", PyStr "bob")]))
    = Some 1%Z.
Proof.
  destruct (terminal_ops_persist_filters (fun _ _ => []) (new_node_set Sample.Person)
              [("name", PyStr "bob")] ltac:(discriminate)) as [_ H].
  exact (proj1 (proj2 (proj2 (H _ (or_introl eq_refl))))).
Defined.

End TerminalClaims.

(* ------------------------------------------------------------------ *)
(** ** [has()] *)

Module HasClaims.
Import Model Has.

(** C9: for each entry of [has(name=value)]: a name that is not a
    relationship of the class raises [ValueError] ("No such relation");
    [True] records the definition in [must_match] and [False] in
    [dont_match], keyed by the name; a [NodeSet] raises
    [NotImplementedError] and any other non-boolean value [ValueError].
    When [process_has_args] raises, [has] raises with it and the node
    set's constraints are not updated; no database access takes place. *)
Theorem has_args_checks (rel_definitions : dict rel_def) (key : string) (value : pyval)
  (rest : dict pyval) (m d : dict rel_def) :
  (dict_get rel_definitions key = None ->
     process_has_args_loop rel_definitions ((key, value) :: rest) m d =
       Err (ErrNoSuchRelation key)) /\
  (forall def, dict_get rel_definitions key = Some def ->
     (value = PyBool true ->
        process_has_args_loop rel_definitions ((key, value) :: rest) m d =
        process_has_args_loop rel_definitions rest (dict_set m key def) d) /\
     (value = PyBool false ->
        process_has_args_loop rel_definitions ((key, value) :: rest) m d =
        process_has_args_loop rel_definitions rest m (dict_set d key def)) /\
     ((exists id, value = PyNodeSet id) ->
        process_has_args_loop rel_definitions ((key, value) :: rest) m d = Err ErrHasNodeSet) /\
     ((forall b, value <> PyBool b) -> (forall id, value <> PyNodeSet id) ->
        process_has_args_loop rel_definitions ((key, value) :: rest) m d = Err ErrHasNotBool)) /\
  (forall kwargs must_match dont_match e,
     process_has_args rel_definitions kwargs = Err e ->
     has rel_definitions must_match dont_match kwargs = Err e).
Proof.
  split; [|split].
  - intros H. simpl. rewrite H. reflexivity.
  - intros def H. simpl. rewrite H.
    split; [intros ->; reflexivity|].
    split; [intros ->; reflexivity|].
    split; [intros [id ->]; reflexivity|].
    intros Hb Hn. destruct value; try reflexivity;
      [destruct (Hb b) | destruct (Hn id)]; reflexivity.
  - intros kwargs must_match dont_match e H. unfold has. rewrite H. reflexivity.
Qed.

Definition friend_rel : rel_def :=
  {| rd_node_class := Sample.Person; rd_direction := OUTGOING;
     rd_relation_type := Some "FRIEND" |}.

Lemma has_args_checks_witness :
  process_has_args [("friends", friend_rel)] [("friends", PyNodeSet 0)] = Err ErrHasNodeSet.
Proof.
  destruct (has_args_checks [("friends", friend_rel)] "friends" (PyNodeSet 0) [] [] [])
    as (_ & H & _).
  exact (proj1 (proj2 (proj2 (H friend_rel eq_refl))) (ex_intro _ 0%nat eq_refl)).
Defined.

End HasClaims.

(* ------------------------------------------------------------------ *)
(** ** The path resolver *)

Module TraversalClaims.
Import Model Traverse.

Definition cnt0 (m : gmap string nat) (k : string) : nat :=
  match m !! k with Some n => n | None => 0%nat end.

(** Hop [h2] is built from the pattern of hop [h1] alone: it is
    [_rel_helper] applied to [h1]'s statement, and extends it. *)
Definition hop_step (h1 h2 : hop) : Prop :=
  (exists rd : rel_def,
     h_stmt h2 = _rel_helper (h_stmt h1) (h_rhs_name h2 ++ ":" ++ cls_label (rd_node_class rd))
                   (h_rel_ident h2) (rd_relation_type rd) (rd_direction rd)) /\
  (exists sfx, h_stmt h2 = h_stmt h1 ++ sfx).

Fixpoint chain (hs : list hop) : Prop :=
  match hs with
  | h1 :: rest => match rest with h2 :: _ => hop_step h1 h2 | [] => True end /\ chain rest
  | [] => True
  end.

Lemma split_dunder_aux_nonempty (s cur : string) : Py.split_dunder_aux s cur <> [].
Proof.
  revert cur. induction s as [|c s IH]; intros cur; [discriminate|].
  destruct s as [|c' s'].
  - cbn. destruct c as [[] [] [] [] [] [] [] []]; discriminate.
  - cbn. destruct c as [[] [] [] [] [] [] [] []]; try apply IH.
    destruct c' as [[] [] [] [] [] [] [] []]; try apply IH; discriminate.
Qed.

Lemma last_char_app (a b : string) : b <> "" -> Py.last_char (a ++ b) = Py.last_char b.
Proof.
  intros Hb. induction a as [|c a IH]; [reflexivity|].
  change (String c a ++ b) with (String c (a ++ b)).
  cbn [Py.last_char]. rewrite IH. destruct a as [|c' a'].
  - destruct b; [congruence | reflexivity].
  - reflexivity.
Qed.

Lemma app_string_nonempty (a b : string) (c : ascii) : a ++ String c b <> "".
Proof. destruct a; discriminate. Qed.

Lemma rel_helper_shape lhs rhs ident ty dir :
  ends_with_paren lhs = true ->
  exists sfx, _rel_helper lhs rhs ident ty dir = lhs ++ sfx.
Proof.
  intros H. unfold _rel_helper. rewrite H. cbv zeta.
  destruct dir; destruct ty as [t|]; eexists; reflexivity.
Qed.

Lemma rel_helper_ends lhs rhs ident ty dir :
  ends_with_paren (_rel_helper lhs rhs ident ty dir) = true.
Proof.
  unfold _rel_helper. cbv zeta.
  destruct (ends_with_paren rhs) eqn:Er.
  - unfold ends_with_paren in Er |- *.
    match goal with |- context [Py.last_char (?a ++ ?b ++ ?c)] =>
      rewrite <- (CountClaims.string_app_assoc a b c) end.
    destruct (Py.last_char rhs) as [c|] eqn:Ec; [|discriminate].
    assert (Hne : rhs <> "") by (intros ->; discriminate).
    rewrite last_char_app by exact Hne.
    rewrite Ec. exact Er.
  - unfold ends_with_paren.
    match goal with |- context [Py.last_char (?a ++ ?b ++ ?c)] =>
      rewrite <- (CountClaims.string_app_assoc a b c) end.
    rewrite last_char_app by discriminate.
    change ("(" ++ rhs ++ ")") with (String "(" rhs ++ ")").
    rewrite last_char_app by discriminate. reflexivity.
Qed.

Lemma rel_helper_nonempty lhs rhs ident ty dir : _rel_helper lhs rhs ident ty dir <> "".
Proof.
  intros E. pose proof (rel_helper_ends lhs rhs ident ty dir) as H.
  rewrite E in H. discriminate.
Qed.

Definition frame (st st2 : tstate) : Prop :=
  t_ident_count st2 = t_ident_count st /\ t_node_counters st2 = t_node_counters st /\
  t_match st2 = t_match st /\ t_optional_match st2 = t_optional_match st.

Lemma frame_refl st : frame st st.
Proof. repeat split. Qed.

Lemma frame_trans a b c : frame a b -> frame b c -> frame a c.
Proof. unfold frame. intros (? & ? & ? & ?) (? & ? & ? & ?). repeat split; congruence. Qed.

Lemma frame_additional_return st n : frame st (_additional_return st n).
Proof. unfold frame, _additional_return. destruct (_ || _); repeat split. Qed.

Lemma frame_set_return_clause st n : frame st (set_return_clause st n).
Proof. repeat split. Qed.

Lemma cnt0_insert m k v k' :
  cnt0 (<[k:=v]> m) k' = if String.eqb k' k then v else cnt0 m k'.
Proof.
  unfold cnt0. destruct (String.eqb_spec k' k) as [->|Hne].
  - rewrite lookup_insert_eq. reflexivity.
  - rewrite lookup_insert_ne by congruence. reflexivity.
Qed.

(** The pattern a hop builds from the statement [s] it extends. *)
Definition hop_from (s : string) (h : hop) : Prop :=
  exists rd : rel_def,
    h_stmt h = _rel_helper s (h_rhs_name h ++ ":" ++ cls_label (rd_node_class rd))
                 (h_rel_ident h) (rd_relation_type rd) (rd_direction rd).

Lemma traverse_parts_spec rels_of rel sq n parts :
  forall index stmt cls st lst hops st',
  traverse_parts rels_of rel sq n parts index stmt cls st = (Ok (lst, hops), st') ->
  length hops = length parts /\
  t_ident_count st' = (t_ident_count st + length parts)%nat /\
  t_match st' = t_match st /\ t_optional_match st' = t_optional_match st /\
  lst = match last hops with Some h => h_stmt h | None => stmt end /\
  (forall i h, hops !! i = Some h ->
     h_rel_ident h = "r" ++ Py.str_of_nat (S (t_ident_count st + i))) /\
  (forall k, cnt0 (t_node_counters st) k <= cnt0 (t_node_counters st') k)%nat /\
  (forall h, In h hops ->
     cnt0 (t_node_counters st) (h_rel_reference h) < h_counter h /\
     h_counter h <= cnt0 (t_node_counters st') (h_rel_reference h))%nat /\
  NoDup ((fun h => (h_rel_reference h, h_counter h)) <$> hops) /\
  (forall h, In h hops -> ends_with_paren (h_stmt h) = true) /\
  chain hops /\
  (forall h, head hops = Some h -> String.eqb stmt "" = false -> hop_from stmt h).
Proof.
  induction parts as [|part rest IH];
    intros index stmt cls st lst hops st' H.
  - cbn in H. injection H as <- <- <-.
    split; [reflexivity|]. split; [cbn; lia|]. split; [reflexivity|].
    split; [reflexivity|]. split; [reflexivity|].
    split; [intros i h Hh; discriminate Hh|]. split; [lia|].
    split; [intros h []|]. split; [constructor|].
    split; [intros h []|]. split; [exact I|].
    intros h Hh; discriminate Hh.
  - cbn [traverse_parts] in H.
    destruct (rels_of cls part) as [rd|] eqn:Erd; [|discriminate H].
    cbv zeta in H.
    set (ref := cls_repr (rd_node_class rd) ++ "_" ++ part) in H.
    set (cnt := S (cnt0 (t_node_counters st) ref)) in H.
    change (S match t_node_counters st !! ref with Some n0 => n0 | None => 0%nat end)
      with cnt in H.
    set (st1 := set_counter st ref cnt) in H.
    set (rhs_name := match rl_alias rel with Some _ => _ | None => _ end) in H.
    set (st1' := if rl_include_in_return rel then _additional_return st1 rhs_name else st1) in H.
    destruct (if String.eqb stmt "" then _ else _) as [lhs_ident st2] eqn:Elhs in H.
    assert (Hf2 : frame st1 st2 /\ (String.eqb stmt "" = false -> lhs_ident = stmt)).
    { assert (Hf1 : frame st1 st1').
      { unfold st1'. destruct (rl_include_in_return rel);
          [apply frame_additional_return | apply frame_refl]. }
      destruct (String.eqb stmt ""), (Nat.eqb index 0), (rl_include_in_return rel), sq;
        injection Elhs as <- <-;
        (split; [eapply frame_trans; [exact Hf1|];
                 first [apply frame_refl | apply frame_additional_return
                        | apply frame_set_return_clause]
                | first [discriminate | reflexivity]]). }
    destruct Hf2 as [Hf2 Hlhs].
    unfold create_ident in H. cbv beta iota in H.
    set (rel_ident := "r" ++ Py.str_of_nat (S (t_ident_count st2))) in H.
    set (st3 := {| t_ident_count := S (t_ident_count st2) |}) in H.
    set (st4 := if rl_include_in_return rel then _additional_return st3 rel_ident else st3) in H.
    set (stmt' := _rel_helper lhs_ident _ rel_ident _ _) in H.
    destruct (traverse_parts rels_of rel sq n rest (S index) stmt' _ st4)
      as [[[last' hops']|e] st5] eqn:Erec in H; [|discriminate H].
    injection H as <- <- <-.
    destruct (IH _ _ _ _ _ _ _ Erec)
      as (IHlen & IHid & IHm & IHo & IHlast & IHrel & IHmono & IHcnt & IHnd & IHends & IHchain & IHhead).
    assert (Hf4 : frame st3 st4).
    { unfold st4. destruct (rl_include_in_return rel);
        [apply frame_additional_return | apply frame_refl]. }
    destruct Hf2 as (F2a & F2b & F2c & F2d).
    destruct Hf4 as (F4a & F4b & F4c & F4d).
    assert (E4a : t_ident_count st4 = S (t_ident_count st)).
    { rewrite F4a. cbn. rewrite F2a. reflexivity. }
    assert (E4b : t_node_counters st4 = <[ref:=cnt]> (t_node_counters st)).
    { rewrite F4b. cbn. rewrite F2b. reflexivity. }
    assert (E4c : t_match st4 = t_match st).
    { rewrite F4c. cbn. rewrite F2c. reflexivity. }
    assert (E4d : t_optional_match st4 = t_optional_match st).
    { rewrite F4d. cbn. rewrite F2d. reflexivity. }
    assert (Hcnt4 : forall k, cnt0 (t_node_counters st4) k =
                      if String.eqb k ref then cnt else cnt0 (t_node_counters st) k).
    { intros k. rewrite E4b. apply cnt0_insert. }
    assert (Hmono : forall k, (cnt0 (t_node_counters st) k <= cnt0 (t_node_counters st5) k)%nat).
    { intros k. specialize (IHmono k). rewrite Hcnt4 in IHmono.
      destruct (String.eqb k ref) eqn:E; [|exact IHmono].
      apply String.eqb_eq in E. rewrite E in *. unfold cnt in IHmono. lia. }
    assert (Hne' : String.eqb stmt' "" = false).
    { apply String.eqb_neq. apply rel_helper_nonempty. }
    split; [cbn; rewrite IHlen; reflexivity|].
    split; [rewrite IHid, E4a; cbn; lia|].
    split; [rewrite IHm; exact E4c|].
    split; [rewrite IHo; exact E4d|].
    split.
    { rewrite IHlast. destruct hops' as [|h2 hops'']; [reflexivity|].
      change (last (_ :: h2 :: hops'')) with (last (h2 :: hops'')).
      destruct (last (h2 :: hops'')) eqn:El; [reflexivity|].
      apply last_None in El. discriminate El. }
    split.
    { intros [|i] h Hh.
      - injection Hh as <-. cbn. unfold rel_ident. rewrite F2a.
        rewrite Nat.add_0_r. reflexivity.
      - cbn in Hh. rewrite (IHrel i h Hh), E4a.
        f_equal. f_equal. lia. }
    split; [exact Hmono|].
    split.
    { intros hh Hin. destruct Hin as [Hhd | Hin].
      - subst hh. cbn. split; [unfold cnt; lia|].
        specialize (IHmono ref). rewrite Hcnt4, String.eqb_refl in IHmono. exact IHmono.
      - destruct (IHcnt hh Hin) as [Hlt Hle]. split; [|exact Hle].
        rewrite Hcnt4 in Hlt.
        destruct (String.eqb (h_rel_reference hh) ref) eqn:E; [|exact Hlt].
        apply String.eqb_eq in E. rewrite E. unfold cnt in Hlt. lia. }
    split.
    { cbn. constructor; [|exact IHnd].
      intros Hin.
      apply list_elem_of_fmap_1 in Hin. destruct Hin as (h & Heq & Hin).
      injection Heq as Hr Hc.
      apply (proj1 (list_elem_of_In _ _)) in Hin. destruct (IHcnt h Hin) as [Hlt _].
      rewrite Hcnt4, <- Hr, String.eqb_refl in Hlt. unfold cnt in Hlt. lia. }
    split.
    { intros h Hin. destruct Hin as [Hhd | Hin];
        [subst h; apply rel_helper_ends | exact (IHends h Hin)]. }
    split.
    { split; [|exact IHchain].
      destruct hops' as [|h2 hops'']; [exact I|].
      destruct (IHhead h2 eq_refl Hne') as [rd2 Hrd2].
      split; [exists rd2; exact Hrd2|].
      rewrite Hrd2. apply rel_helper_shape. apply rel_helper_ends. }
    intros h Hh Hs. injection Hh as <-. exists rd. cbn.
    unfold stmt'. rewrite (Hlhs Hs). reflexivity.
Qed.

(** Claim C1, counterexample: with [Person.friends] pointing to [Shouter]
    (label [PERSON]) and [Shouter.friends] back to [Person], the two-hop
    path [friends__friends] from [Person] adds one pattern, not two, to the
    match list, and both hops are named [person_friends_1]: the counters
    are kept per target class and part, and the name only has the
    lower-cased label. *)
Lemma two_hop_path_repeats_node_name :
  let rel := {| rl_path := "friends__friends"; rl_alias := None;
                rl_include_in_return := false; rl_optional := false |} in
  length (Py.split_dunder (rl_path rel)) = 2%nat /\
  match build_traversal_from_path Sample.mixed_rels false rel Sample.Person empty_tstate with
  | (Ok (_, hops), st') =>
      map h_rhs_name hops = ["person_friends_1"; "person_friends_1"] /\
      t_match st' = ["(person:Person)-[r1:`FRIEND`]->(person_friends_1:PERSON)-[r2:`FRIEND`]->(person_friends_1:Person)"]
      /\ t_optional_match st' = []
  | (Err _, _) => False
  end.
Proof. vm_compute. split; [reflexivity | split; [reflexivity | split; reflexivity]]. Qed.

(** Claim C1 (amended): a path of N parts that resolves appends exactly
    ONE pattern, the last hop's, to the optional-match list when the
    relation is optional and to the match list otherwise, and leaves the
    other list alone. The N hops form a chain: each hop's pattern is
    [_rel_helper] applied to the previous hop's pattern and extends it.
    The relationship identifiers are [r(c+1)], ..., [r(c+N)] for the
    identifier count [c] before the call (so pairwise distinct, and the
    count ends at [c+N]); the node counters of the hops give pairwise
    distinct (class-and-part key, counter) pairs, each counter above the
    key's count before the call. The node names built from them are not
    unique: hops to two classes whose labels agree in lower case can get
    the same name. *)
Theorem path_resolution_single_fragment rels_of sq rel cls st rhs hops st' :
  build_traversal_from_path rels_of sq rel cls st = (Ok (rhs, hops), st') ->
  length hops = length (Py.split_dunder (rl_path rel)) /\
  (1 <= length hops)%nat /\
  (exists h, last hops = Some h /\ rhs = h_rhs_name h /\
     (if rl_optional rel
      then t_optional_match st' = (t_optional_match st ++ [h_stmt h])%list /\
           t_match st' = t_match st
      else t_match st' = (t_match st ++ [h_stmt h])%list /\
           t_optional_match st' = t_optional_match st)) /\
  chain hops /\
  t_ident_count st' = (t_ident_count st + length hops)%nat /\
  (forall i h, hops !! i = Some h ->
     h_rel_ident h = "r" ++ Py.str_of_nat (S (t_ident_count st + i))) /\
  NoDup (h_rel_ident <$> hops) /\
  NoDup ((fun h => (h_rel_reference h, h_counter h)) <$> hops) /\
  (forall h, In h hops ->
     cnt0 (t_node_counters st) (h_rel_reference h) < h_counter h)%nat.
Proof.
  unfold build_traversal_from_path. intros H.
  destruct (traverse_parts rels_of rel sq _ _ 0 "" cls st)
    as [[[s hs]|e] st1] eqn:E; [|discriminate H].
  destruct (traverse_parts_spec _ _ _ _ _ _ _ _ _ _ _ _ E)
    as (Hlen & Hid & Hm & Ho & Hlast & Hrel & _ & Hcnt & Hnd & _ & Hchain & _).
  assert (Hne : Py.split_dunder (rl_path rel) <> []) by apply split_dunder_aux_nonempty.
  assert (Hrid : forall i h, hs !! i = Some h ->
            h_rel_ident h = "r" ++ Py.str_of_nat (S (t_ident_count st + i))).
  { intros i h Hh. rewrite (Hrel i h Hh). reflexivity. }
  assert (Hnd2 : NoDup (h_rel_ident <$> hs)).
  { apply NoDup_alt. intros i j x Hi Hj.
    rewrite list_lookup_fmap in Hi, Hj.
    destruct (hs !! i) as [hi|] eqn:Ei; [|discriminate Hi].
    destruct (hs !! j) as [hj|] eqn:Ej; [|discriminate Hj].
    injection Hi as Hi. injection Hj as Hj.
    rewrite (Hrid i hi Ei) in Hi. rewrite (Hrid j hj Ej) in Hj.
    rewrite <- Hj in Hi. injection Hi as Hi.
    apply RegistryFacts.str_of_nat_inj in Hi. lia. }
  destruct (last hs) as [h|] eqn:El.
  2:{ apply last_None in El. subst hs. cbn in Hlen.
      destruct (Py.split_dunder (rl_path rel)); [contradiction | discriminate Hlen]. }
  assert (H1 : (1 <= length hs)%nat).
  { destruct hs; [discriminate El | cbn; lia]. }
  destruct (rl_optional rel); injection H as <- <- <-;
    (split; [exact Hlen|]); (split; [exact H1|]);
    (split; [exists h; split; [exact El|]; split; [reflexivity|]; cbn;
             rewrite Hlast, Hm, Ho; split; reflexivity|]);
    (split; [exact Hchain|]); (split; [cbn; rewrite Hid, Hlen; reflexivity|]);
    (split; [exact Hrid|]); (split; [exact Hnd2|]); (split; [exact Hnd|]);
    intros h' Hin; exact (proj1 (Hcnt h' Hin)).
Qed.

(** A two-hop path satisfies the hypothesis. *)
Lemma path_resolution_single_fragment_witness :
  exists rhs hops st',
    build_traversal_from_path Sample.person_rels false
      {| rl_path := "friends__friends"; rl_alias := None;
         rl_include_in_return := false; rl_optional := false |} Sample.Person empty_tstate
    = (Ok (rhs, hops), st') /\ length hops = 2%nat /\ length (t_match st') = 1%nat.
Proof.
  destruct (build_traversal_from_path Sample.person_rels false
      {| rl_path := "friends__friends"; rl_alias := None;
         rl_include_in_return := false; rl_optional := false |} Sample.Person empty_tstate)
    as [[[rhs hops]|e] st'] eqn:E.
  2:{ vm_compute in E. discriminate E. }
  exists rhs, hops, st'. split; [reflexivity|].
  destruct (path_resolution_single_fragment _ _ _ _ _ _ _ _ E)
    as (Hl & _ & (h & _ & _ & Hm & _) & _).
  split; [rewrite Hl; vm_compute; reflexivity|].
  rewrite Hm. reflexivity.
Defined.

End TraversalClaims.

(* ------------------------------------------------------------------ *)
(** ** Relationship patterns with properties *)

Module PatternFacts.
Import Model Patterns.

(** The [ON CREATE SET ... ON MATCH SET ...] suffix of a merge pattern
    for the [None]-valued keys. *)
Definition merge_set_suffix (ident : string) (props : dict (option string)) : string :=
  match none_keys props with
  | [] => ""
  | ks =>
      let l := Py.join ", " (map (fun key => ident ++ "." ++ key ++ "=$" ++ key) ks) in
      " ON CREATE SET " ++ l ++ " ON MATCH SET " ++ l
  end.

Lemma existsb_none_keys (props : dict (option string)) :
  existsb (fun kv => match snd kv with None => true | Some _ => false end) props =
  match none_keys props with [] => false | _ => true end.
Proof.
  induction props as [|[k [v|]] rest IH]; cbn; [reflexivity | exact IH | reflexivity].
Qed.

(** Without an explicit relationship type ([None] or ["*"]) the merge
    pattern drops every property constraint: it is the pattern without
    properties, followed by the [SET] suffix, which still names [ident]
    although the pattern does not bind it. *)
Theorem rel_merge_helper_untyped lhs rhs ident relation_type dir props :
  relation_type = None \/ relation_type = Some "*" ->
  _rel_merge_helper lhs rhs ident relation_type dir props =
  _rel_merge_helper lhs rhs ident relation_type dir [] ++ merge_set_suffix ident props.
Proof.
  intros Hrt. unfold _rel_merge_helper, merge_set_suffix.
  destruct props as [|kv rest].
  - cbv beta iota zeta. symmetry. apply CountClaims.string_app_empty_r.
  - cbv beta iota zeta. rewrite existsb_none_keys.
    destruct Hrt as [-> | ->]; cbn [String.eqb Ascii.eqb Bool.eqb andb];
      rewrite !CountClaims.string_app_assoc; destruct (none_keys (kv :: rest));
      rewrite ?CountClaims.string_app_empty_r; reflexivity.
Qed.

(** [relation_properties] change a [_rel_helper] pattern only when the
    relationship type is explicit: for [None], ["*"] or no properties it
    is the property-less pattern of the path resolver. *)
Theorem rel_helper_props_need_type lhs rhs ident relation_type dir props :
  relation_type = None \/ relation_type = Some "*" \/ props = [] ->
  Patterns._rel_helper lhs rhs ident relation_type dir props =
  Traverse._rel_helper lhs rhs ident relation_type dir.
Proof.
  intros H. unfold Patterns._rel_helper, Traverse._rel_helper.
  destruct H as [-> | [-> | ->]]; [reflexivity | reflexivity |].
  reflexivity.
Qed.

(** Theorem [rel_merge_helper_untyped] at a concrete call. *)
Lemma rel_merge_helper_untyped_witness :
  _rel_merge_helper "a" "b" "r" None OUTGOING [("since", Some "1"); ("w", None)] =
  "(a)-->(b) ON CREATE SET r.w=$w ON MATCH SET r.w=$w".
Proof.
  rewrite (rel_merge_helper_untyped "a" "b" "r" None OUTGOING _ (or_introl eq_refl)).
  vm_compute. reflexivity.
Defined.

Lemma rel_helper_props_need_type_witness :
  Patterns._rel_helper "a" "b" "r" (Some "*") EITHER [("since", "1")] = "(a)-[*]-(b)".
Proof.
  rewrite (rel_helper_props_need_type "a" "b" "r" (Some "*") EITHER _
             (or_intror (or_introl eq_refl))).
  vm_compute. reflexivity.
Defined.

End PatternFacts.

(* ------------------------------------------------------------------ *)
(** ** What the path resolver returns *)

Module ResolverFacts.
Import Model Traverse.

Lemma in_strings_In x l : in_strings x l = true <-> In x l.
Proof.
  unfold in_strings. rewrite existsb_exists. split.
  - intros (y & Hy & E). apply String.eqb_eq in E. subst y. exact Hy.
  - intros H. exists x. split; [exact H | apply String.eqb_refl].
Qed.

Lemma ar_rc st n : t_return_clause (_additional_return st n) = t_return_clause st.
Proof. unfold _additional_return. destruct (_ || _); reflexivity. Qed.

Lemma ar_mono st n x :
  In x (t_additional_return st) -> In x (t_additional_return (_additional_return st n)).
Proof.
  unfold _additional_return. destruct (_ || _); [tauto|]. cbn.
  intros H. apply in_or_app. left. exact H.
Qed.

Lemma ar_in st n x :
  In x (t_additional_return (_additional_return st n)) -> In x (t_additional_return st) \/ x = n.
Proof.
  unfold _additional_return. destruct (_ || _); [tauto|]. cbn.
  intros H. apply in_app_or in H. destruct H as [H | [H | []]]; [left | right]; congruence.
Qed.

Lemma ar_self st n :
  In n (t_additional_return (_additional_return st n)) \/ t_return_clause st = Some n.
Proof.
  unfold _additional_return.
  destruct (in_strings n (t_additional_return st)) eqn:E1; cbn [orb].
  - left. apply in_strings_In. exact E1.
  - destruct (t_return_clause st) as [rc|] eqn:Erc.
    + destruct (String.eqb n rc) eqn:E2.
      * right. apply String.eqb_eq in E2. congruence.
      * left. cbn. apply in_or_app. right. left. reflexivity.
    + left. cbn. apply in_or_app. right. left. reflexivity.
Qed.

(** The return clause and the additional return list across the hop
    loop, from a first call ([stmt = ""] only at index 0). *)
Lemma traverse_parts_ret rels_of rel sq n parts :
  forall index stmt cls st lst hops st',
  (String.eqb stmt "" = true -> index = 0%nat) ->
  traverse_parts rels_of rel sq n parts index stmt cls st = (Ok (lst, hops), st') ->
  t_return_clause st' =
    (if String.eqb stmt "" then
       match parts with [] => t_return_clause st | _ => Some (Py.lower (cls_label cls)) end
     else t_return_clause st) /\
  (rl_include_in_return rel = false -> t_additional_return st' = t_additional_return st) /\
  (forall x, In x (t_additional_return st) -> In x (t_additional_return st')) /\
  (forall x, In x (t_additional_return st') ->
     In x (t_additional_return st) \/
     exists h, In h hops /\ (x = h_rhs_name h \/ x = h_rel_ident h)) /\
  (rl_include_in_return rel = true -> forall h x, In h hops ->
     (x = h_rhs_name h \/ x = h_rel_ident h) ->
     In x (t_additional_return st') \/ t_return_clause st' = Some x \/
     t_return_clause st = Some x).
Proof.
  induction parts as [|part rest IH];
    intros index stmt cls st lst hops st' Hidx H.
  - cbn in H. injection H as <- <- <-.
    split; [destruct (String.eqb stmt ""); reflexivity|].
    split; [reflexivity|]. split; [tauto|]. split; [tauto|].
    intros _ h x [].
  - cbn [traverse_parts] in H.
    destruct (rels_of cls part) as [rd|] eqn:Erd; [|discriminate H].
    cbv zeta in H.
    set (ref := cls_repr (rd_node_class rd) ++ "_" ++ part) in H.
    set (cnt := S match t_node_counters st !! ref with Some n0 => n0 | None => 0%nat end) in H.
    set (st1 := set_counter st ref cnt) in H.
    set (rhs_name := match rl_alias rel with Some _ => _ | None => _ end) in H.
    set (st1' := if rl_include_in_return rel then _additional_return st1 rhs_name else st1) in H.
    destruct (if String.eqb stmt "" then _ else _) as [lhs_ident st2] eqn:Elhs in H.
    unfold create_ident in H. cbv beta iota in H.
    set (rel_ident := "r" ++ Py.str_of_nat (S (t_ident_count st2))) in H.
    set (st3 := {| t_ident_count := S (t_ident_count st2) |}) in H.
    set (st4 := if rl_include_in_return rel then _additional_return st3 rel_ident else st3) in H.
    set (stmt' := _rel_helper lhs_ident _ rel_ident _ _) in H.
    destruct (traverse_parts rels_of rel sq n rest (S index) stmt' _ st4)
      as [[[last' hops']|e] st5] eqn:Erec in H; [|discriminate H].
    injection H as <- <- <-.
    assert (Hne' : String.eqb stmt' "" = false).
    { apply String.eqb_neq. apply TraversalClaims.rel_helper_nonempty. }
    destruct (IH _ _ _ _ _ _ _ (fun E => ltac:(rewrite Hne' in E; discriminate E)) Erec)
      as (IHrc & IHfalse & IHmono & IHin & IHtrue).
    rewrite Hne' in IHrc.
    (* the states between the hop's start and the recursive call *)
    assert (E1rc : t_return_clause st1' = t_return_clause st).
    { unfold st1'. destruct (rl_include_in_return rel); [rewrite ar_rc|]; reflexivity. }
    assert (E1in : forall x, In x (t_additional_return st1') ->
                   In x (t_additional_return st) \/ x = rhs_name).
    { intros x Hx. unfold st1' in Hx. destruct (rl_include_in_return rel);
        [apply ar_in in Hx|]; tauto. }
    assert (E1mono : forall x, In x (t_additional_return st) -> In x (t_additional_return st1')).
    { intros x Hx. unfold st1'. destruct (rl_include_in_return rel); [apply ar_mono|]; exact Hx. }
    assert (E1self : rl_include_in_return rel = true ->
                     In rhs_name (t_additional_return st1') \/ t_return_clause st = Some rhs_name).
    { intros Hi. unfold st1'. rewrite Hi. exact (ar_self st1 rhs_name). }
    assert (E1false : rl_include_in_return rel = false ->
                      t_additional_return st1' = t_additional_return st).
    { intros Hi. unfold st1'. rewrite Hi. reflexivity. }
    assert (E2 : t_return_clause st2 =
                   (if String.eqb stmt "" then Some (Py.lower (cls_label cls))
                    else t_return_clause st) /\
                 (forall x, In x (t_additional_return st1') -> In x (t_additional_return st2)) /\
                 (forall x, In x (t_additional_return st2) -> In x (t_additional_return st1')) /\
                 t_additional_return st2 = t_additional_return st1').
    { destruct (String.eqb stmt "") eqn:Es.
      - rewrite (Hidx eq_refl) in Elhs. cbn [Nat.eqb] in Elhs.
        injection Elhs as _ <-. cbn. split; [reflexivity|]. split; [tauto|]. split; tauto.
      - injection Elhs as _ <-. rewrite E1rc. split; [reflexivity|].
        split; [tauto|]. split; tauto. }
    destruct E2 as (E2rc & E2mono & E2in & E2eq).
    assert (E4rc : t_return_clause st4 = t_return_clause st2).
    { unfold st4. destruct (rl_include_in_return rel); [rewrite ar_rc|]; reflexivity. }
    assert (E4in : forall x, In x (t_additional_return st4) ->
                   In x (t_additional_return st2) \/ x = rel_ident).
    { intros x Hx. unfold st4 in Hx. destruct (rl_include_in_return rel);
        [apply ar_in in Hx|]; cbn in Hx; tauto. }
    assert (E4mono : forall x, In x (t_additional_return st2) -> In x (t_additional_return st4)).
    { intros x Hx. unfold st4. destruct (rl_include_in_return rel); [apply ar_mono|]; exact Hx. }
    assert (E4self : rl_include_in_return rel = true ->
                     In rel_ident (t_additional_return st4) \/
                     t_return_clause st2 = Some rel_ident).
    { intros Hi. unfold st4. rewrite Hi. exact (ar_self st3 rel_ident). }
    assert (E4false : rl_include_in_return rel = false ->
                      t_additional_return st4 = t_additional_return st2).
    { intros Hi. unfold st4. rewrite Hi. reflexivity. }
    assert (Hrc5 : t_return_clause st5 =
                   (if String.eqb stmt "" then Some (Py.lower (cls_label cls))
                    else t_return_clause st)).
    { rewrite IHrc, E4rc, E2rc. reflexivity. }
    split; [rewrite Hrc5; destruct (String.eqb stmt ""); reflexivity|].
    split.
    { intros Hi. rewrite IHfalse, E4false, E2eq, E1false by exact Hi. reflexivity. }
    split; [intros x Hx; apply IHmono, E4mono, E2mono, E1mono; exact Hx|].
    split.
    { intros x Hx. destruct (IHin x Hx) as [Hx4 | (h & Hh & Hxh)].
      - destruct (E4in x Hx4) as [Hx2 | ->].
        + destruct (E1in x (E2in x Hx2)) as [Hx0 | ->]; [left; exact Hx0|].
          right. exists (Build_hop ref cnt rhs_name rel_ident stmt').
          split; [left; reflexivity | left; reflexivity].
        + right. exists (Build_hop ref cnt rhs_name rel_ident stmt').
          split; [left; reflexivity | right; reflexivity].
      - right. exists h. split; [right; exact Hh | exact Hxh]. }
    intros Hi h x Hh Hx.
    assert (Hrc2 : t_return_clause st2 = t_return_clause st5 \/
                   t_return_clause st2 = t_return_clause st).
    { rewrite Hrc5, E2rc. destruct (String.eqb stmt ""); [left | right]; reflexivity. }
    destruct Hh as [<- | Hh].
    + cbn in Hx. destruct Hx as [-> | ->].
      * destruct (E1self Hi) as [Hin | Hrc]; [|right; right; exact Hrc].
        left. apply IHmono, E4mono, E2mono. exact Hin.
      * destruct (E4self Hi) as [Hin | Hrc]; [left; apply IHmono; exact Hin|].
        right. destruct Hrc2 as [Hr | Hr]; rewrite <- Hr; [left | right]; exact Hrc.
    + destruct (IHtrue Hi h x Hh Hx) as [Hin | [Hrc | Hrc]]; [left; exact Hin | right; left; exact Hrc|].
      right. rewrite E4rc in Hrc. destruct Hrc2 as [Hr | Hr]; rewrite <- Hr; [left | right]; exact Hrc.
Qed.

End ResolverFacts.

(* ------------------------------------------------------------------ *)
(** ** The [build_ast] pipeline of a node set *)

Module PipelineFacts.
Import Model Query Render Traverse Compile.

(** The builder fields [build_relations] does not touch. *)
Definition qb_frame (q q' : qb) : Prop :=
  a_where (qb_ast q') = a_where (qb_ast q) /\
  a_with_clause (qb_ast q') = a_with_clause (qb_ast q) /\
  a_order_by (qb_ast q') = a_order_by (qb_ast q) /\
  a_skip (qb_ast q') = a_skip (qb_ast q) /\ a_limit (qb_ast q') = a_limit (qb_ast q) /\
  a_lookup (qb_ast q') = a_lookup (qb_ast q) /\ a_is_count (qb_ast q') = a_is_count (qb_ast q) /\
  qb_registry q' = qb_registry q /\ qb_params q' = qb_params q.

Lemma qb_frame_refl q : qb_frame q q.
Proof. unfold qb_frame. tauto. Qed.

Lemma qb_frame_trans a b c : qb_frame a b -> qb_frame b c -> qb_frame a c.
Proof. unfold qb_frame. intros H1 H2. intuition congruence. Qed.

Lemma qb_frame_of_tstate q t : qb_frame q (of_tstate q t).
Proof. unfold qb_frame. cbn. tauto. Qed.

(** One relation: its path resolves from the source class. *)
Lemma btfp_facts rels_of sq rel cls st rhs hops st' :
  build_traversal_from_path rels_of sq rel cls st = (Ok (rhs, hops), st') ->
  t_return_clause st' = Some (Py.lower (cls_label cls)) /\
  length (t_match st') = (length (t_match st) + if rl_optional rel then 0 else 1)%nat /\
  length (t_optional_match st') =
    (length (t_optional_match st) + if rl_optional rel then 1 else 0)%nat /\
  (rl_include_in_return rel = false -> t_additional_return st' = t_additional_return st) /\
  (forall x, In x (t_additional_return st) -> In x (t_additional_return st')) /\
  (forall x, In x (t_additional_return st') ->
     In x (t_additional_return st) \/
     exists h, In h hops /\ (x = h_rhs_name h \/ x = h_rel_ident h)) /\
  (rl_include_in_return rel = true -> forall h x, In h hops ->
     (x = h_rhs_name h \/ x = h_rel_ident h) ->
     In x (t_additional_return st') \/ t_return_clause st' = Some x \/
     t_return_clause st = Some x).
Proof.
  unfold build_traversal_from_path. intros H.
  destruct (traverse_parts rels_of rel sq _ _ 0 "" cls st)
    as [[[s hs]|e] st1] eqn:E; [|discriminate H].
  destruct (TraversalClaims.traverse_parts_spec _ _ _ _ _ _ _ _ _ _ _ _ E)
    as (_ & _ & Hm & Ho & _).
  destruct (ResolverFacts.traverse_parts_ret _ _ _ _ _ _ _ _ _ _ _ _ (fun _ => eq_refl) E)
    as (Hrc & Hfalse & Hmono & Hin & Htrue).
  assert (Hne : Py.split_dunder (rl_path rel) <> []) by apply TraversalClaims.split_dunder_aux_nonempty.
  cbn [String.eqb] in Hrc.
  destruct (Py.split_dunder (rl_path rel)) as [|p ps]; [contradiction|].
  destruct (rl_optional rel); injection H as <- <- <-; cbn;
    rewrite ?length_app, Hm, Ho; cbn;
    (split; [exact Hrc|]); (split; [lia|]); (split; [lia|]); tauto.
Qed.

(** The loop over [relations_to_fetch]. *)
Lemma build_relations_facts rels_of sq cls rs :
  forall q q', build_relations rels_of sq cls rs q = Ok q' ->
  qb_frame q q' /\
  length (a_match (qb_ast q')) =
    (length (a_match (qb_ast q)) + length (List.filter (fun r => negb (rl_optional r)) rs))%nat /\
  length (a_optional_match (qb_ast q')) =
    (length (a_optional_match (qb_ast q)) + length (List.filter rl_optional rs))%nat /\
  a_return_clause (qb_ast q') =
    match rs with [] => a_return_clause (qb_ast q) | _ => Some (Py.lower (cls_label cls)) end /\
  (forallb (fun r => negb (rl_include_in_return r)) rs = true ->
     a_additional_return (qb_ast q') = a_additional_return (qb_ast q)).
Proof.
  induction rs as [|r rest IH]; intros q q' H.
  - cbn in H. injection H as <-. split; [apply qb_frame_refl|]. cbn. split; [lia|].
    split; [lia|]. split; reflexivity.
  - cbn [build_relations] in H.
    destruct (build_traversal_from_path rels_of sq r cls (to_tstate q))
      as [[[rhs hops]|e] t] eqn:E; [|discriminate H].
    destruct (btfp_facts _ _ _ _ _ _ _ _ E) as (Hrc & Hm & Ho & Hfalse & _).
    destruct (IH _ _ H) as (Hf & IHm & IHo & IHrc & IHadd).
    split; [eapply qb_frame_trans; [apply qb_frame_of_tstate | exact Hf]|].
    rewrite IHm, IHo. cbn [qb_ast of_tstate a_match a_optional_match].
    rewrite Hm, Ho. cbn [to_tstate t_match t_optional_match].
    split; [destruct (rl_optional r) eqn:Eo; cbn; rewrite ?Eo; cbn; lia|].
    split; [destruct (rl_optional r) eqn:Eo; cbn; rewrite ?Eo; cbn; lia|].
    split; [rewrite IHrc; destruct rest; [exact Hrc | reflexivity]|].
    cbn [forallb]. intros Hall. apply andb_prop in Hall. destruct Hall as [Hr Hall].
    rewrite (IHadd Hall). cbn. apply Hfalse. destruct (rl_include_in_return r); easy.
Qed.

(** [build_where_stmt] appends at most one conjunct to WHERE and changes
    nothing else in the AST. *)
Lemma build_where_spec ident cls qf q q' :
  build_where ident cls qf q = Ok q' ->
  exists w, qb_ast q' = ast_where (qb_ast q) (a_where (qb_ast q) ++ w)%list /\
            (w = [] \/ exists s, w = [s]).
Proof.
  unfold build_where. destruct (Nodes.q_truthy qf).
  - destruct (parse_q_filters _ _ _ _) as [[stmts|e] st]; [|discriminate].
    intros H. injection H as <-. cbn.
    destruct (String.eqb stmts "").
    + exists []. split; [|left; reflexivity].
      rewrite app_nil_r. destruct (qb_ast q); reflexivity.
    + exists [stmts]. split; [reflexivity | right; exists stmts; reflexivity].
  - intros H. injection H as <-. exists []. split; [|left; reflexivity].
    rewrite app_nil_r. destruct (qb_ast q); reflexivity.
Qed.

(** [build_where_stmt] commutes with a change of the WITH and ORDER BY
    fields. *)
Lemma build_where_with_order ident cls qf q w o :
  build_where ident cls qf (set_ast q (ast_with_order (qb_ast q) w o)) =
  match build_where ident cls qf q with
  | Ok q' => Ok (set_ast q' (ast_with_order (qb_ast q') w o))
  | Err e => Err e
  end.
Proof.
  unfold build_where. destruct (Nodes.q_truthy qf); [|reflexivity].
  cbn [qb_registry qb_params set_ast].
  destruct (parse_q_filters _ _ _ _) as [[stmts|e] st]; [|reflexivity].
  destruct (String.eqb stmts ""); reflexivity.
Qed.

(** The node set with its ordering replaced. *)
Definition with_order (ns : nset) (o : option (list string)) : nset :=
  mk_nset ns (n_must_match ns) (n_dont_match ns) o (n_relations_to_fetch ns)
    (n_extra_results ns) (n_subqueries ns) (n_skip ns) (n_limit ns).

(** What [build_source] writes for the ordering elements [e]. *)
Definition order_fields (ident : string) (with_clause : option string) (e : list string)
  : option string * option (list string) :=
  if in_strings "?" e then (Some (ident ++ ", rand() as r"), Some ["r"])
  else (with_clause, Some (map (fun p => ident ++ "." ++ p) e)).

Lemma build_ast_order rels_of sq ns e :
  build_ast rels_of sq (with_order ns (Some e)) =
  match build_ast rels_of sq (with_order ns None) with
  | Ok q =>
      let '(w, o) := order_fields (Py.lower (cls_label (n_source ns)))
                       (a_with_clause (qb_ast q)) e in
      Ok (set_ast q (ast_with_order (qb_ast q) w o))
  | Err err => Err err
  end.
Proof.
  unfold build_ast, with_order, mk_nset. cbn [n_source n_relations_to_fetch n_must_match
    n_dont_match n_order_by_elements n_q_filters n_skip n_limit].
  destruct (build_relations _ _ _ _ new_qb) as [q1|err]; [|reflexivity].
  cbn [bind].
  set (q2 := build_additional_match _ _ _ (build_label _ _ q1)).
  unfold build_order_by, order_fields.
  destruct (in_strings "?" e).
  - rewrite build_where_with_order.
    destruct (build_where _ _ _ q2) as [q3|err]; reflexivity.
  - rewrite build_where_with_order.
    destruct (build_where _ _ _ q2) as [q3|err] eqn:Ew; [|reflexivity].
    destruct (build_where_spec _ _ _ _ _ Ew) as (w & Hw & _).
    cbn. rewrite Hw. reflexivity.
Qed.

(** The AST [build_ast] produces for a node set. *)
Lemma build_ast_spec rels_of sq ns q :
  build_ast rels_of sq ns = Ok q ->
  let cls := n_source ns in
  let ident := Py.lower (cls_label cls) in
  exists q1 w,
    build_relations rels_of sq cls (n_relations_to_fetch ns) new_qb = Ok q1 /\
    let a1 := qb_ast (build_label ident cls q1) in
    a_match (qb_ast q) = a_match a1 /\ a_optional_match (qb_ast q) = a_optional_match a1 /\
    a_return_clause (qb_ast q) = a_return_clause a1 /\
    a_additional_return (qb_ast q) = a_additional_return a1 /\
    a_where (qb_ast q) =
      (map (fun kv => has_pattern ident (snd kv)) (n_must_match ns) ++
       map (fun kv => ("NOT " ++ has_pattern ident (snd kv))%string) (n_dont_match ns) ++ w)%list /\
    (w = [] \/ exists s, w = [s]) /\
    (a_with_clause (qb_ast q), a_order_by (qb_ast q)) =
      match n_order_by_elements ns with
      | None => (None, None)
      | Some e => order_fields ident None e
      end /\
    a_skip (qb_ast q) = n_skip ns /\ a_limit (qb_ast q) = n_limit ns /\
    a_lookup (qb_ast q) = None /\ a_is_count (qb_ast q) = false.
Proof.
  unfold build_ast. intros H. cbv zeta.
  destruct (build_relations _ _ _ _ new_qb) as [q1|err] eqn:Er; [|discriminate H].
  cbn [bind] in H.
  destruct (build_where _ _ _ _) as [q3|err] eqn:Ew; [|discriminate H].
  injection H as <-.
  destruct (build_where_spec _ _ _ _ _ Ew) as (w & Hw & Hw1).
  destruct (build_relations_facts _ _ _ _ _ _ Er) as ((F1 & F2 & F3 & F4 & F5 & F6 & F7 & _) & _).
  cbn in F1, F2, F3, F4, F5, F6, F7.
  exists q1, w. split; [reflexivity|]. cbv zeta.
  assert (Hl : forall ql, ql = build_label (Py.lower (cls_label (n_source ns))) (n_source ns) q1 ->
               a_where (qb_ast ql) = [] /\ a_with_clause (qb_ast ql) = None /\
               a_order_by (qb_ast ql) = None /\ a_lookup (qb_ast ql) = None /\
               a_is_count (qb_ast ql) = false).
  { intros ql ->. unfold build_label. destruct (_ && _); cbn; tauto. }
  specialize (Hl _ eq_refl).
  set (ql := build_label (Py.lower (cls_label (n_source ns))) (n_source ns) q1) in *.
  clearbody ql.
  destruct Hl as (L1 & L2 & L3 & L4 & L5).
  cbn [set_ast qb_ast]. rewrite Hw.
  destruct (n_order_by_elements ns) as [e|];
    [unfold build_order_by, order_fields; destruct (in_strings "?" e)|];
    cbn; rewrite ?L1, ?L2, ?L3, ?L4, ?L5;
    (split; [reflexivity|]); (split; [reflexivity|]); (split; [reflexivity|]);
    (split; [reflexivity|]); (split; [rewrite app_nil_l, <- app_assoc; reflexivity|]); (split; [exact Hw1|]);
    repeat (split; [reflexivity|]); reflexivity.
Qed.

End PipelineFacts.

(* ------------------------------------------------------------------ *)
(** ** Ordering and slicing of a node set *)

Module OrderFacts.
Import Model Query Compile PipelineFacts.

Definition is_random (p : option string) : bool :=
  match p with Some s => String.eqb s "?" | None => false end.

Lemma order_by_loop_app cls p1 p2 acc :
  order_by_loop cls (p1 ++ p2) acc =
  match order_by_loop cls p1 acc with
  | (acc', None) => order_by_loop cls p2 acc'
  | r => r
  end.
Proof.
  revert acc. induction p1 as [|[s|] p1 IH]; intros acc; [reflexivity| |reflexivity].
  cbn [app order_by_loop].
  destruct (match strip s with String "-" p => (p, true) | _ => (strip s, false) end)
    as [prop desc].
  destruct (dict_get (cls_props cls) prop); [apply IH | reflexivity].
Qed.

(** One argument that fails fails the same way whatever precedes it. *)
Lemma order_by_loop_fail cls s rest acc acc' e :
  order_by_loop cls [Some s] acc = (acc', Some e) ->
  forall acc2, order_by_loop cls (Some s :: rest) acc2 = (acc2, Some e).
Proof.
  cbn [order_by_loop].
  destruct (match strip s with String "-" p => (p, true) | _ => (strip s, false) end)
    as [prop desc].
  destruct (dict_get (cls_props cls) prop); [discriminate|].
  intros H. injection H as _ <-. reflexivity.
Qed.

Lemma existsb_random_false l : ~ In (Some "?") l -> existsb is_random l = false.
Proof.
  intros H. apply Bool.not_true_iff_false. intros E.
  apply existsb_exists in E. destruct E as ([s|] & Hin & E); [|discriminate E].
  apply String.eqb_eq in E. subst s. exact (H Hin).
Qed.

Lemma order_by_plain ns props :
  props <> [None] -> ~ In (Some "?") props ->
  order_by ns props =
  let '(elems', err) :=
    order_by_loop (n_source ns) props
      (match n_order_by_elements ns with Some e => e | None => [] end) in
  (with_order ns (Some elems'), err).
Proof.
  intros H1 H2. unfold order_by.
  replace (match props with [None] => true | _ => false end) with false
    by (destruct props as [|[s|] [|]]; congruence).
  change (existsb (fun p => match p with Some s => String.eqb s "?" | None => false end) props)
    with (existsb is_random props).
  rewrite existsb_random_false by exact H2. reflexivity.
Qed.

(** The node set with its pagination replaced. *)
Definition with_skip_limit (ns : nset) (s l : option Z) : nset :=
  mk_nset ns (n_must_match ns) (n_dont_match ns) (n_order_by_elements ns)
    (n_relations_to_fetch ns) (n_extra_results ns) (n_subqueries ns) s l.

Lemma build_ast_skip_limit rels_of sq ns s l :
  build_ast rels_of sq (with_skip_limit ns s l) =
  match build_ast rels_of sq ns with
  | Ok q => Ok (set_ast q (ast_skip_limit (qb_ast q) s l))
  | Err e => Err e
  end.
Proof.
  unfold build_ast, with_skip_limit, mk_nset. cbn [n_source n_relations_to_fetch n_must_match
    n_dont_match n_order_by_elements n_q_filters n_skip n_limit].
  destruct (build_relations _ _ _ _ new_qb) as [q1|err]; [|reflexivity]. cbn [bind].
  destruct (build_where _ _ _ _) as [q3|err]; reflexivity.
Qed.

(** [order_by(None)] removes every ordering: the node set compiles to
    the statement and parameters of the same node set never ordered
    (no ORDER BY, no WITH). *)
Theorem order_by_none_unordered rels_of sq ns :
  snd (order_by ns [None]) = None /\
  compile rels_of sq (fst (order_by ns [None])) = compile rels_of sq (with_order ns None).
Proof.
  split; [reflexivity|].
  change (fst (order_by ns [None])) with (with_order ns (Some [])).
  unfold compile. rewrite build_ast_order.
  destruct (build_ast rels_of sq (with_order ns None)) as [q|e] eqn:E; [|reflexivity].
  destruct (build_ast_spec _ _ _ _ E) as (q1 & w & _ & _ & _ & _ & _ & _ & _ & Hwo & _).
  cbn [n_order_by_elements with_order mk_nset] in Hwo. injection Hwo as Hw Ho.
  cbn [bind order_fields in_strings existsb].
  f_equal. f_equal. unfold build_query, order_part. cbn [set_ast qb_ast ast_with_order a_order_by].
  rewrite Ho. reflexivity.
Qed.

(** A ["?"] among the arguments of [order_by] appends ["?"] to the
    ordering without validating any other argument, and the compiled
    query then orders only at random: [WITH ident, rand() as r] and
    [ORDER BY r], whatever orderings were set before. *)
Theorem order_by_random_discards rels_of sq ns props q :
  In (Some "?") props ->
  order_by ns props =
    (with_order ns (Some (match n_order_by_elements ns with Some e => e | None => [] end
                          ++ ["?"])%list), None) /\
  (build_ast rels_of sq (fst (order_by ns props)) = Ok q ->
   a_with_clause (qb_ast q) = Some (Py.lower (cls_label (n_source ns)) ++ ", rand() as r") /\
   a_order_by (qb_ast q) = Some ["r"]).
Proof.
  intros Hin.
  assert (E : order_by ns props =
    (with_order ns (Some (match n_order_by_elements ns with Some e => e | None => [] end
                          ++ ["?"])%list), None)).
  { unfold order_by.
    replace (match props with [None] => true | _ => false end) with false
      by (destruct props as [|[s|] [|]]; [easy|easy|easy| |easy];
          destruct Hin as [H|[]]; discriminate H).
    change (existsb (fun p => match p with Some s => String.eqb s "?" | None => false end) props)
      with (existsb is_random props).
    replace (existsb is_random props) with true; [reflexivity|].
    symmetry. apply existsb_exists. exists (Some "?"). split; [exact Hin | reflexivity]. }
  split; [exact E|]. rewrite E. cbn [fst]. intros Hq.
  destruct (build_ast_spec _ _ _ _ Hq) as (q1 & w & _ & _ & _ & _ & _ & _ & _ & Hwo & _).
  cbn [n_order_by_elements with_order mk_nset n_source] in Hwo.
  unfold order_fields in Hwo.
  replace (in_strings "?" _) with true in Hwo.
  - injection Hwo as Hw Ho. split; assumption.
  - symmetry. apply ResolverFacts.in_strings_In. apply in_or_app. right. left. reflexivity.
Qed.

(** [order_by] does not replace the ordering: two successive calls
    without ["?"] whose first one succeeds order exactly like one call
    with both argument lists. *)
Theorem order_by_accumulates ns p1 p2 :
  p1 <> [None] -> p2 <> [None] ->
  ~ In (Some "?") p1 -> ~ In (Some "?") p2 ->
  snd (order_by ns p1) = None ->
  order_by (fst (order_by ns p1)) p2 = order_by ns (p1 ++ p2).
Proof.
  intros H1 H2 R1 R2 Hok.
  assert (H12 : (p1 ++ p2)%list <> [None]).
  { destruct p1 as [|x [|y p1]]; [exact H2| |discriminate].
    destruct p2; [exact H1 | discriminate]. }
  assert (R12 : ~ In (Some "?") (p1 ++ p2)%list).
  { intros Hin. apply in_app_or in Hin. tauto. }
  rewrite (order_by_plain ns (p1 ++ p2) H12 R12).
  rewrite (order_by_plain ns p1 H1 R1) in Hok |- *.
  rewrite order_by_loop_app.
  destruct (order_by_loop (n_source ns) p1 _) as [e1 err1].
  cbn in Hok. subst err1. cbn [fst].
  rewrite (order_by_plain _ p2 H2 R2). reflexivity.
Qed.

(** An argument naming no property of the class stops [order_by] with
    [ValueError]; the orderings of the arguments before it stay on the
    node set, the ones after it are not applied. *)
Theorem order_by_keeps_prefix ns p1 s p2 e :
  p1 <> [None] -> ~ In (Some "?") (p1 ++ Some s :: p2) ->
  snd (order_by ns p1) = None ->
  snd (order_by ns [Some s]) = Some e ->
  order_by ns (p1 ++ Some s :: p2) = (fst (order_by ns p1), Some e).
Proof.
  intros H1 R Hok Hfail.
  assert (R1 : ~ In (Some "?") p1) by (intros Hin; apply R, in_or_app; left; exact Hin).
  assert (Rs : ~ In (Some "?") [Some s])
    by (intros Hin; apply R, in_or_app; right; destruct Hin as [<-|[]]; left; reflexivity).
  assert (Hs : [Some s] <> [None]) by discriminate.
  assert (H12 : (p1 ++ Some s :: p2)%list <> [None]).
  { intros E. destruct p1 as [|x p1]; cbn in E; injection E as E1 E2;
      [discriminate E1 | destruct p1; discriminate E2]. }
  rewrite (order_by_plain _ _ H12 R).
  rewrite (order_by_plain _ _ H1 R1) in Hok |- *.
  rewrite (order_by_plain _ _ Hs Rs) in Hfail.
  rewrite order_by_loop_app.
  destruct (order_by_loop (n_source ns) p1 _) as [e1 err1].
  cbn in Hok. subst err1.
  destruct (order_by_loop (n_source ns) [Some s] _) as [e2 err2] eqn:Es.
  cbn in Hfail. subst err2.
  rewrite (order_by_loop_fail _ _ _ _ _ _ Es e1). reflexivity.
Qed.

(** Slices are not composed like Python list slices: [ns[:b][a:]] skips
    [a] and keeps the limit [b] (rows [a] to [a+b], not [a] to [b]),
    while [ns[a:b]] limits to [b-a]; a start of [0] keeps the skip set
    by an earlier slice. *)
Theorem slices_not_composed ns a b :
  a <> 0%Z -> b <> 0%Z ->
  n_skip (getitem_slice (getitem_slice ns None (Some b)) (Some a) None) = Some a /\
  n_limit (getitem_slice (getitem_slice ns None (Some b)) (Some a) None) = Some b /\
  n_skip (getitem_slice ns (Some a) (Some b)) = Some a /\
  n_limit (getitem_slice ns (Some a) (Some b)) = Some (b - a)%Z /\
  n_skip (getitem_slice ns (Some 0%Z) (Some b)) = n_skip ns.
Proof.
  intros Ha Hb. apply Z.eqb_neq in Ha, Hb. unfold getitem_slice.
  rewrite Ha, Hb. cbn. repeat split.
Qed.

(** A slice whose stop is below its start (both non-zero) is sent as
    [SKIP start LIMIT (stop - start)], a negative LIMIT, at the end of
    the statement. *)
Theorem slice_negative_limit rels_of sq ns a b stmt params :
  a <> 0%Z -> b <> 0%Z -> (b < a)%Z ->
  compile rels_of sq (getitem_slice ns (Some a) (Some b)) = Ok (stmt, params) ->
  (b - a < 0)%Z /\
  exists pre, stmt = pre ++ " SKIP " ++ str_of_Z a ++ " LIMIT " ++ str_of_Z (b - a).
Proof.
  intros Ha Hb Hlt H. split; [lia|].
  unfold compile in H.
  destruct (build_ast rels_of sq _) as [q|e] eqn:E; [|discriminate H].
  cbn in H. injection H as <- _.
  destruct (build_ast_spec _ _ _ _ E) as (_ & _ & _ & _ & _ & _ & _ & _ & _ & _ & Hs & Hl & _ & Hc).
  apply Z.eqb_neq in Ha, Hb.
  unfold getitem_slice in Hs, Hl. rewrite Ha, Hb in Hs, Hl. cbn in Hs, Hl.
  assert (Hba : (b - a =? 0)%Z = false) by (apply Z.eqb_neq; lia).
  unfold build_query, skip_part, limit_part. rewrite Hs, Hl, Hc. cbn [truthy_int negb andb].
  rewrite Ha, Hba. cbn [negb andb].
  eexists. rewrite <- !CountClaims.string_app_assoc. reflexivity.
Qed.

(** A skip or limit of [0] is falsy: the node set compiles exactly as
    without it. *)
Theorem zero_skip_limit_absent rels_of sq ns s l :
  compile rels_of sq (with_skip_limit ns (Some 0%Z) l) =
    compile rels_of sq (with_skip_limit ns None l) /\
  compile rels_of sq (with_skip_limit ns s (Some 0%Z)) =
    compile rels_of sq (with_skip_limit ns s None).
Proof.
  unfold compile. rewrite !build_ast_skip_limit.
  destruct (build_ast rels_of sq ns) as [q|e]; [|split; reflexivity].
  split; reflexivity.
Qed.

(** Witnesses: [Person.nodes.order_by("name")] then [order_by("tags")]
    or [order_by("age", "name")]. *)
Lemma order_by_accumulates_witness :
  order_by (fst (order_by Sample.person_nodes [Some "name"])) [Some "-tags"] =
  order_by Sample.person_nodes [Some "name"; Some "-tags"].
Proof.
  apply (order_by_accumulates Sample.person_nodes [Some "name"] [Some "-tags"]);
    [discriminate | discriminate | | | vm_compute; reflexivity];
    intros [H|[]]; discriminate H.
Defined.

Lemma order_by_keeps_prefix_witness :
  order_by Sample.person_nodes [Some "name"; Some "age"; Some "tags"] =
  (fst (order_by Sample.person_nodes [Some "name"]), Some (XNoSuchProperty "age")).
Proof.
  apply (order_by_keeps_prefix Sample.person_nodes [Some "name"] "age" [Some "tags"]);
    [discriminate | | vm_compute; reflexivity | vm_compute; reflexivity].
  intros [H|[H|[H|[]]]]; discriminate H.
Defined.

Lemma order_by_random_discards_witness :
  exists q, build_ast Sample.person_rels false
              (fst (order_by Sample.person_nodes [Some "name"; Some "?"; None])) = Ok q /\
  a_order_by (qb_ast q) = Some ["r"].
Proof.
  destruct (build_ast Sample.person_rels false
              (fst (order_by Sample.person_nodes [Some "name"; Some "?"; None]))) as [q|e] eqn:E.
  2:{ vm_compute in E. discriminate E. }
  exists q. split; [reflexivity|].
  refine (proj2 (proj2 (order_by_random_discards Sample.person_rels false Sample.person_nodes
                 [Some "name"; Some "?"; None] q _) E)).
  right. left. reflexivity.
Defined.

Lemma slices_not_composed_witness :
  n_limit (getitem_slice (getitem_slice Sample.person_nodes None (Some 10%Z)) (Some 5%Z) None)
  = Some 10%Z.
Proof. exact (proj1 (proj2 (slices_not_composed Sample.person_nodes 5 10 ltac:(lia) ltac:(lia)))). Defined.

Lemma slice_negative_limit_witness :
  exists stmt params,
    compile Sample.person_rels false (getitem_slice Sample.person_nodes (Some 5%Z) (Some 2%Z))
    = Ok (stmt, params) /\
    exists pre, stmt = pre ++ " SKIP " ++ str_of_Z 5 ++ " LIMIT " ++ str_of_Z (2 - 5).
Proof.
  destruct (compile Sample.person_rels false
              (getitem_slice Sample.person_nodes (Some 5%Z) (Some 2%Z))) as [[stmt params]|e] eqn:E.
  2:{ vm_compute in E. discriminate E. }
  exists stmt, params. split; [reflexivity|].
  exact (proj2 (slice_negative_limit _ _ _ 5 2 stmt params ltac:(lia) ltac:(lia) ltac:(lia) E)).
Defined.

End OrderFacts.

(* ------------------------------------------------------------------ *)
(** ** Relations to fetch, [has()] and [resolve_subgraph] *)

Module FetchFacts.
Import Model Query Traverse Compile PipelineFacts.

Lemma dict_get_set_eq {V} (d : dict V) k v : dict_get (dict_set d k v) k = Some v.
Proof.
  induction d as [|[k' v'] d IH]; cbn; [rewrite String.eqb_refl; reflexivity|].
  destruct (String.eqb k k') eqn:E; cbn; rewrite ?String.eqb_refl, ?E; [reflexivity | exact IH].
Qed.

Lemma dict_get_In {V} (d : dict V) k v : dict_get d k = Some v -> In (k, v) d.
Proof.
  induction d as [|[k' v'] d IH]; cbn; [discriminate|].
  destruct (String.eqb k k') eqn:E; [|intros H; right; exact (IH H)].
  intros H. injection H as <-. apply String.eqb_eq in E. subst. left. reflexivity.
Qed.

(** For a node set on a class: without relations to fetch the only
    pattern is [(ident:Label)],
    which is also returned. With relations, and a non-empty label, the
    source is matched only through them: one pattern per non-optional
    relation in MATCH, one per optional relation in OPTIONAL MATCH, no
    [(ident:Label)] pattern, and the return clause is the source
    variable the resolver set. *)
Theorem relations_replace_label_match rels_of sq ns q :
  build_ast rels_of sq ns = Ok q ->
  let ident := Py.lower (cls_label (n_source ns)) in
  (n_relations_to_fetch ns = [] ->
     a_match (qb_ast q) = ["(" ++ ident ++ ":" ++ cls_label (n_source ns) ++ ")"] /\
     a_optional_match (qb_ast q) = [] /\ a_return_clause (qb_ast q) = Some ident) /\
  (n_relations_to_fetch ns <> [] -> ident <> "" ->
     length (a_match (qb_ast q)) =
       length (List.filter (fun r => negb (rl_optional r)) (n_relations_to_fetch ns)) /\
     length (a_optional_match (qb_ast q)) =
       length (List.filter rl_optional (n_relations_to_fetch ns)) /\
     a_return_clause (qb_ast q) = Some ident).
Proof.
  intros H. cbv zeta.
  destruct (build_ast_spec _ _ _ _ H) as (q1 & w & Er & Hm & Ho & Hrc & _).
  destruct (build_relations_facts _ _ _ _ _ _ Er) as (_ & Lm & Lo & Lrc & _).
  rewrite Hm, Ho, Hrc. cbn [new_qb qb_ast empty_ast a_match a_optional_match] in Lm, Lo.
  split.
  - intros Hnil. rewrite Hnil in Er. cbn in Er. injection Er as <-.
    cbn. split; [reflexivity | split; reflexivity].
  - intros Hne Hid. destruct (n_relations_to_fetch ns) as [|r rs]; [contradiction|].
    assert (Ht : truthy_str (a_return_clause (qb_ast q1)) = true).
    { rewrite Lrc. cbn. apply String.eqb_neq in Hid. rewrite Hid. reflexivity. }
    unfold build_label. rewrite Ht. cbn [negb andb].
    rewrite Lm, Lo, Lrc. split; [reflexivity|]. split; reflexivity.
Qed.

(** [traverse_relations] registers its paths with
    [include_in_return=False]: the compiled query returns no node or
    relationship of the paths, only the source variable. *)
Theorem traverse_relations_return_only_source rels_of sq ns names aliased q :
  build_ast rels_of sq (traverse_relations ns names aliased) = Ok q ->
  a_additional_return (qb_ast q) = [].
Proof.
  intros H.
  destruct (build_ast_spec _ _ _ _ H) as (q1 & w & Er & _ & _ & _ & Hadd & _).
  destruct (build_relations_facts _ _ _ _ _ _ Er) as (_ & _ & _ & _ & Ladd).
  rewrite Hadd. unfold build_label.
  assert (Hq1 : a_additional_return (qb_ast q1) = []).
  { rewrite Ladd; [reflexivity|].
    cbn [traverse_relations set_relations mk_nset n_relations_to_fetch].
    apply forallb_forall. intros r Hr. apply in_app_or in Hr.
    destruct Hr as [Hr | Hr]; apply in_map_iff in Hr; destruct Hr as (x & <- & _); reflexivity. }
  destruct (_ && _); cbn; exact Hq1.
Qed.

(** One path with [include_in_return]: every hop's node and
    relationship variable is returned (in the additional return list, or
    as the return clause); without it nothing is added. In both cases
    only hop variables are ever added, never the source node name. *)
Theorem resolver_returns_hop_vars rels_of sq rel cls st rhs hops st' :
  build_traversal_from_path rels_of sq rel cls st = (Ok (rhs, hops), st') ->
  (rl_include_in_return rel = false -> t_additional_return st' = t_additional_return st) /\
  (rl_include_in_return rel = true -> forall h x, In h hops ->
     (x = h_rhs_name h \/ x = h_rel_ident h) ->
     In x (t_additional_return st') \/ t_return_clause st' = Some x \/
     t_return_clause st = Some x) /\
  (forall x, In x (t_additional_return st') ->
     In x (t_additional_return st) \/
     exists h, In h hops /\ (x = h_rhs_name h \/ x = h_rel_ident h)).
Proof.
  intros H. destruct (btfp_facts _ _ _ _ _ _ _ _ H) as (_ & _ & _ & Hf & _ & Hin & Ht).
  split; [exact Hf|]. split; [exact Ht | exact Hin].
Qed.

(** [resolve_subgraph] after registering relations: after
    [traverse_relations] with any path it raises [NotImplementedError];
    after [fetch_relations()] without paths it raises the
    "Nothing to resolve" [RuntimeError]; after [fetch_relations] with
    paths both checks pass and what follows them (building the query
    with the subgraph, running it, rebuilding the subgraphs) decides the
    outcome. *)
Theorem resolve_subgraph_after_registration (X : Type) (after_checks : nset -> xres (list X))
  ns names aliased names' :
  (names <> [] \/ aliased <> []) ->
  names' <> [] ->
  resolve_subgraph X after_checks (traverse_relations ns names aliased) = XErr XNotImplemented /\
  resolve_subgraph X after_checks (fetch_relations ns []) = XErr XNothingToResolve /\
  resolve_subgraph X after_checks (fetch_relations ns names') =
    after_checks (fetch_relations ns names').
Proof.
  intros Hn Hn'. split; [|split; [reflexivity|]].
  - unfold resolve_subgraph. cbn [traverse_relations set_relations mk_nset n_relations_to_fetch].
    destruct names as [|n names].
    + destruct aliased as [|a al]; [destruct Hn; contradiction|]. reflexivity.
    + reflexivity.
  - unfold resolve_subgraph. cbn [fetch_relations set_relations mk_nset n_relations_to_fetch].
    destruct names' as [|n names']; [contradiction | reflexivity].
Qed.


Lemma has_single rel_definitions must dont k d b :
  dict_get rel_definitions k = Some d ->
  Has.has rel_definitions must dont [(k, PyBool b)] =
  Ok (if b then dict_set must k d else must, if b then dont else dict_set dont k d).
Proof.
  intros Hd. unfold Has.has, Has.process_has_args.
  cbn [Has.process_has_args_loop]. rewrite Hd. destruct b; reflexivity.
Qed.

(** [has(k=True)] then [has(k=False)] leaves [k] in both [must_match]
    and [dont_match]: both calls succeed and the compiled WHERE asks for
    the relationship and for its absence. *)
Theorem has_true_then_false rel_definitions rels_of sq ns k d :
  dict_get rel_definitions k = Some d ->
  exists ns1 ns2,
    has rel_definitions ns [(k, PyBool true)] = XOk ns1 /\
    has rel_definitions ns1 [(k, PyBool false)] = XOk ns2 /\
    forall q, build_ast rels_of sq ns2 = Ok q ->
      let p := has_pattern (Py.lower (cls_label (n_source ns))) d in
      In p (a_where (qb_ast q)) /\ In ("NOT " ++ p) (a_where (qb_ast q)).
Proof.
  intros Hd.
  set (ns1 := mk_nset ns (dict_set (n_must_match ns) k d) (n_dont_match ns)
                (n_order_by_elements ns) (n_relations_to_fetch ns) (n_extra_results ns)
                (n_subqueries ns) (n_skip ns) (n_limit ns)).
  exists ns1.
  exists (mk_nset ns1 (n_must_match ns1) (dict_set (n_dont_match ns1) k d)
       (n_order_by_elements ns1) (n_relations_to_fetch ns1) (n_extra_results ns1)
       (n_subqueries ns1) (n_skip ns1) (n_limit ns1)).
  split; [unfold has; rewrite (has_single _ _ _ _ _ true Hd); reflexivity|].
  split; [unfold has; rewrite (has_single _ _ _ _ _ false Hd); reflexivity|].
  intros q Hq. cbv zeta.
  destruct (build_ast_spec _ _ _ _ Hq) as (q1 & w & _ & _ & _ & _ & _ & Hw & _).
  cbn [n_must_match n_dont_match n_source mk_nset] in Hw. rewrite Hw.
  assert (Hm : In (k, d) (dict_set (n_must_match ns) k d))
    by (apply dict_get_In, dict_get_set_eq).
  assert (Ho : In (k, d) (dict_set (n_dont_match ns) k d))
    by (apply dict_get_In, dict_get_set_eq).
  split.
  - apply in_or_app. left. apply in_map_iff. exists (k, d). split; [reflexivity | exact Hm].
  - apply in_or_app. right. apply in_or_app. left. apply in_map_iff.
    exists (k, d). split; [reflexivity | exact Ho].
Qed.

(** Witnesses on [Person] and its [friends] relationship. *)
Lemma resolve_subgraph_after_registration_witness :
  resolve_subgraph nat (fun _ => XOk []) (traverse_relations Sample.person_nodes [RelPath "friends"] [])
  = XErr XNotImplemented.
Proof.
  refine (proj1 (resolve_subgraph_after_registration nat (fun _ => XOk []) Sample.person_nodes
    [RelPath "friends"] [] [RelPath "friends"] _ _)); [left|]; discriminate.
Defined.

Lemma has_true_then_false_witness :
  exists ns1 ns2,
    has Sample.person_rel_defs Sample.person_nodes [("friends", PyBool true)] = XOk ns1 /\
    has Sample.person_rel_defs ns1 [("friends", PyBool false)] = XOk ns2.
Proof.
  destruct (has_true_then_false Sample.person_rel_defs Sample.person_rels false
              Sample.person_nodes "friends" _ eq_refl) as (ns1 & ns2 & H1 & H2 & _).
  exists ns1, ns2. split; assumption.
Defined.

Lemma relations_replace_label_match_witness :
  exists q,
    build_ast Sample.person_rels false
      (fetch_relations Sample.person_nodes [RelPath "friends"; RelOptional "friends__friends"])
    = Ok q /\ length (a_match (qb_ast q)) = 1%nat /\ length (a_optional_match (qb_ast q)) = 1%nat.
Proof.
  destruct (build_ast Sample.person_rels false
      (fetch_relations Sample.person_nodes [RelPath "friends"; RelOptional "friends__friends"]))
    as [q|e] eqn:E.
  2:{ vm_compute in E. discriminate E. }
  exists q. split; [reflexivity|].
  destruct (proj2 (relations_replace_label_match _ _ _ _ E) ltac:(discriminate) ltac:(discriminate))
    as (Hm & Ho & _).
  rewrite Hm, Ho. split; reflexivity.
Defined.

Lemma traverse_relations_return_only_source_witness :
  exists q,
    build_ast Sample.person_rels false
      (traverse_relations Sample.person_nodes [RelPath "friends"] [("f", RelPath "friends")])
    = Ok q /\ a_additional_return (qb_ast q) = [].
Proof.
  destruct (build_ast Sample.person_rels false
      (traverse_relations Sample.person_nodes [RelPath "friends"] [("f", RelPath "friends")]))
    as [q|e] eqn:E.
  2:{ vm_compute in E. discriminate E. }
  exists q. split; [reflexivity | exact (traverse_relations_return_only_source _ _ _ _ _ _ E)].
Defined.


Lemma resolver_returns_hop_vars_witness :
  exists rhs hops st',
    build_traversal_from_path Sample.person_rels false
      {| rl_path := "friends"; rl_alias := None; rl_include_in_return := true;
         rl_optional := false |} Sample.Person empty_tstate = (Ok (rhs, hops), st') /\
    forall x, In x (t_additional_return st') ->
      exists h, In h hops /\ (x = h_rhs_name h \/ x = h_rel_ident h).
Proof.
  destruct (build_traversal_from_path Sample.person_rels false
      {| rl_path := "friends"; rl_alias := None; rl_include_in_return := true;
         rl_optional := false |} Sample.Person empty_tstate) as [[[rhs hops]|e] st'] eqn:E.
  2:{ vm_compute in E. discriminate E. }
  exists rhs, hops, st'. split; [reflexivity|].
  intros x Hx. destruct (proj2 (proj2 (resolver_returns_hop_vars _ _ _ _ _ _ _ _ E)) x Hx)
    as [[] | Hh]. exact Hh.
Defined.

End FetchFacts.

(* ------------------------------------------------------------------ *)
(** ** Subqueries, annotations and installed traversals *)

Module SubqueryFacts.
Import Model Query Compile.

(** [f"{vardef} AS {varname}"] for each annotation. *)
Definition rendered (extras : dict string) : list string :=
  map (fun e => (snd e ++ " AS " ++ fst e)%string) extras.

Lemma remove_first_absent n l : ~ In n l -> remove_first n l = l.
Proof.
  induction l as [|y l IH]; intros H; [reflexivity|]. cbn.
  destruct (String.eqb n y) eqn:E.
  - apply String.eqb_eq in E. subst. exfalso. apply H. left. reflexivity.
  - f_equal. apply IH. intros Hin. apply H. right. exact Hin.
Qed.

Lemma remove_first_app n x r : ~ In n r -> remove_first n (x ++ r) = (remove_first n x ++ r)%list.
Proof.
  intros H. induction x as [|y x IH]; [exact (remove_first_absent n r H)|].
  cbn. destruct (String.eqb n y); [reflexivity|]. rewrite IH. reflexivity.
Qed.

Lemma return_fold extras :
  forall x r,
  (forall n, In n (map fst extras) -> ~ In n r /\ ~ In n (rendered extras)) ->
  fold_left (fun items (e : string * string) =>
               let '(varname, vardef) := e in
               let items := if in_strings varname items then remove_first varname items
                            else items in
               (items ++ [(vardef ++ " AS " ++ varname)%string])%list) extras (x ++ r)%list =
  (fold_left (fun items n => remove_first n items) (map fst extras) x ++ r ++ rendered extras)%list.
Proof.
  induction extras as [|[n d] extras IH]; intros x r H.
  - cbn. rewrite app_nil_r. reflexivity.
  - cbn [fold_left map fst snd].
    assert (Hn := H n (or_introl eq_refl)). destruct Hn as [Hnr Hnd].
    replace (if in_strings n (x ++ r) then remove_first n (x ++ r) else (x ++ r)%list)
      with (remove_first n x ++ r)%list.
    2:{ destruct (in_strings n (x ++ r)) eqn:E; [symmetry; apply remove_first_app; exact Hnr|].
        rewrite <- remove_first_app by exact Hnr. apply remove_first_absent.
        intros Hin. apply ResolverFacts.in_strings_In in Hin. congruence. }
    rewrite <- app_assoc. rewrite IH.
    + cbn [rendered map]. rewrite <- app_assoc. reflexivity.
    + intros m Hm. split.
      * intros Hin. apply in_app_or in Hin. destruct Hin as [Hin | [Hin | []]].
        -- exact (proj1 (H m (or_intror Hm)) Hin).
        -- apply (proj2 (H m (or_intror Hm))). cbn. left. exact Hin.
      * intros Hin. apply (proj2 (H m (or_intror Hm))). cbn. right. exact Hin.
Qed.

(** The RETURN items with annotations: each annotation removes the first
    bare occurrence of its name (the return clause, a returned path
    variable or a subquery variable), and the annotations come last, as
    [vardef AS name], in the order they were registered. *)
Theorem return_items_annotations ctx rc add :
  (forall n, In n (map fst (q_extra_results ctx)) -> ~ In n (rendered (q_extra_results ctx))) ->
  return_items ctx rc add =
    (fold_left (fun items n => remove_first n items) (map fst (q_extra_results ctx))
       ((if truthy_str rc && negb (q_subquery_context ctx)
         then concat (map snd (q_subqueries ctx)) ++ [fmt_opt rc]
         else concat (map snd (q_subqueries ctx))) ++ add) ++
     rendered (q_extra_results ctx))%list.
Proof.
  intros H. unfold return_items. cbv zeta.
  pose proof (return_fold (q_extra_results ctx)
    ((if truthy_str rc && negb (q_subquery_context ctx)
      then concat (map snd (q_subqueries ctx)) ++ [fmt_opt rc]
      else concat (map snd (q_subqueries ctx))) ++ add)%list []) as R.
  rewrite app_nil_r in R.
  refine (eq_trans (R _) eq_refl).
  intros n Hn. split; [intros [] | exact (H n Hn)].
Qed.

(** [subquery] accepts the inner query's return clause in [return_set],
    but the inner statement, built in subquery context, does not return
    it: for an inner node set without annotations or subqueries of its
    own, the variable is missing from the inner RETURN list. *)
Theorem subquery_primary_var_not_returned rels_of ns inner q v :
  build_ast rels_of true inner = Ok q ->
  a_return_clause (qb_ast q) = Some v ->
  ~ In v (a_additional_return (qb_ast q)) ->
  n_extra_results inner = [] -> n_subqueries inner = [] ->
  subquery rels_of ns inner [v] =
    (mk_nset ns (n_must_match ns) (n_dont_match ns) (n_order_by_elements ns)
       (n_relations_to_fetch ns) (n_extra_results ns)
       (n_subqueries ns ++ [(build_query (nset_ctx inner true) (qb_ast q), [v])])%list
       (n_skip ns) (n_limit ns), None) /\
  ~ In v (return_items (nset_ctx inner true) (a_return_clause (qb_ast q))
            (a_additional_return (qb_ast q))).
Proof.
  intros Hq Hrc Hadd Hex Hsq. split.
  - unfold subquery. rewrite Hq, Hrc. cbn [List.find]. rewrite String.eqb_refl. reflexivity.
  - unfold return_items, nset_ctx. cbn [q_subqueries q_extra_results q_subquery_context].
    rewrite Hex, Hsq. cbn. rewrite andb_false_r. cbn. exact Hadd.
Qed.

(** A variable of [return_set] that the inner query neither has as
    return clause, nor returns, nor annotates makes [subquery] raise the
    "is not returned" [RuntimeError] for the first such variable, and the
    node set is left unchanged. *)
Theorem subquery_rejects_unreturned rels_of ns inner return_set q v :
  build_ast rels_of true inner = Ok q ->
  In v return_set ->
  a_return_clause (qb_ast q) <> Some v ->
  ~ In v (a_additional_return (qb_ast q)) ->
  ~ In v (map fst (n_extra_results inner)) ->
  exists v', In v' return_set /\
    subquery rels_of ns inner return_set = (ns, Some (XNotReturned v')) /\
    a_return_clause (qb_ast q) <> Some v' /\ ~ In v' (a_additional_return (qb_ast q)) /\
    ~ In v' (map fst (n_extra_results inner)).
Proof.
  intros Hq Hin Hrc Hadd Hex. unfold subquery. rewrite Hq.
  set (f := fun var : string =>
    (match a_return_clause (qb_ast q) with
     | Some rc => negb (String.eqb var rc) | None => true end) &&
    negb (in_strings var (a_additional_return (qb_ast q))) &&
    negb (in_strings var (map fst (n_extra_results inner)))).
  assert (Hf : forall x, f x = true <->
            a_return_clause (qb_ast q) <> Some x /\ ~ In x (a_additional_return (qb_ast q)) /\
            ~ In x (map fst (n_extra_results inner))).
  { intros x. unfold f.
    pose proof (ResolverFacts.in_strings_In x (a_additional_return (qb_ast q))) as I1.
    pose proof (ResolverFacts.in_strings_In x (map fst (n_extra_results inner))) as I2.
    destruct (in_strings x (a_additional_return (qb_ast q))),
      (in_strings x (map fst (n_extra_results inner)));
      destruct (a_return_clause (qb_ast q)) as [rc|];
      try destruct (String.eqb_spec x rc) as [->|Hne]; cbn;
      split; intros Hx; intuition congruence. }
  destruct (List.find f return_set) as [v'|] eqn:E.
  - apply find_some in E. destruct E as [Hv' Hfv'].
    exists v'. split; [exact Hv'|]. split; [reflexivity|]. apply Hf. exact Hfv'.
  - exfalso. apply (find_none f return_set E v) in Hin.
    assert (Hfv : f v = true) by (apply Hf; tauto). congruence.
Qed.

Lemma annotate_loop_app items1 items2 extra :
  annotate_loop (items1 ++ items2) extra =
  match annotate_loop items1 extra with
  | (extra', None) => annotate_loop items2 extra'
  | r => r
  end.
Proof.
  revert extra. induction items1 as [|[varname v] items1 IH]; intros extra; [reflexivity|].
  cbn [app annotate_loop].
  destruct (register_extra_var extra v varname); [apply IH | reflexivity].
Qed.

(** A value of [annotate] that is not an aggregate, positional or keyword,
    raises [NotImplementedError]; the annotations of the arguments before
    it stay registered, the ones after it are not. The positional values
    are registered before the keyword ones. *)
Theorem annotate_keeps_prefix ns vars r :
  (forall vars2 aliased_vars, snd (annotate ns vars []) = None ->
     annotate ns (vars ++ VOther r :: vars2) aliased_vars =
     (fst (annotate ns vars []), Some XNotImplemented)) /\
  (forall al1 k al2, snd (annotate ns vars al1) = None ->
     annotate ns vars (al1 ++ (k, VOther r) :: al2)%list =
     (fst (annotate ns vars al1), Some XNotImplemented)).
Proof.
  split.
  - intros vars2 aliased_vars. unfold annotate. rewrite !map_app, !app_nil_r.
    cbn [map]. rewrite <- app_assoc. cbn [app]. rewrite annotate_loop_app.
    destruct (annotate_loop (map (fun v => (None, v)) vars) (n_extra_results ns)) as [e err].
    cbn [snd fst]. intros ->. reflexivity.
  - intros al1 k al2 H. unfold annotate in *. rewrite (map_app _ al1).
    cbn [map fst snd]. rewrite app_assoc, annotate_loop_app.
    destruct (annotate_loop (map (fun v => (None, v)) vars ++
                             map (fun kv => (Some (fst kv), snd kv)) al1)
                (n_extra_results ns)) as [e err].
    cbn [snd fst] in H |- *. rewrite H. reflexivity.
Qed.

(** Witnesses. *)
Lemma return_items_annotations_witness :
  return_items {| q_subqueries := []; q_extra_results := [("person", "collect(person)")];
                  q_subquery_context := false |} (Some "person") ["r1"]
  = ["r1"; "collect(person) AS person"].
Proof.
  rewrite return_items_annotations; [vm_compute; reflexivity|].
  intros n [<-|[]] [H|[]]. discriminate H.
Defined.

Lemma subquery_primary_var_not_returned_witness :
  exists q, build_ast Sample.person_rels true Sample.person_nodes = Ok q /\
    ~ In "person" (return_items (nset_ctx Sample.person_nodes true) (a_return_clause (qb_ast q))
                     (a_additional_return (qb_ast q))).
Proof.
  destruct (build_ast Sample.person_rels true Sample.person_nodes) as [q|e] eqn:E.
  2:{ vm_compute in E. discriminate E. }
  exists q. split; [reflexivity|].
  assert (Hrc : a_return_clause (qb_ast q) = Some "person")
    by (vm_compute in E; injection E as <-; reflexivity).
  assert (Hadd : ~ In "person" (a_additional_return (qb_ast q)))
    by (vm_compute in E; injection E as <-; intros []).
  exact (proj2 (subquery_primary_var_not_returned Sample.person_rels Sample.person_nodes
                  Sample.person_nodes q "person" E Hrc Hadd eq_refl eq_refl)).
Defined.

Lemma subquery_rejects_unreturned_witness :
  exists q, build_ast Sample.person_rels true Sample.person_nodes = Ok q /\
  exists v', In v' ["person"; "friend"] /\
    subquery Sample.person_rels Sample.person_nodes Sample.person_nodes ["person"; "friend"]
    = (Sample.person_nodes, Some (XNotReturned v')).
Proof.
  destruct (build_ast Sample.person_rels true Sample.person_nodes) as [q|e] eqn:E.
  2:{ vm_compute in E. discriminate E. }
  exists q. split; [reflexivity|].
  assert (Hrc : a_return_clause (qb_ast q) <> Some "friend")
    by (vm_compute in E; injection E as <-; discriminate).
  assert (Hadd : ~ In "friend" (a_additional_return (qb_ast q)))
    by (vm_compute in E; injection E as <-; intros []).
  destruct (subquery_rejects_unreturned Sample.person_rels Sample.person_nodes Sample.person_nodes
              ["person"; "friend"] q "friend" E (or_intror (or_introl eq_refl)) Hrc Hadd (fun H => H))
    as (v' & Hv' & Hs & _).
  exists v'. split; assumption.
Defined.

Lemma annotate_keeps_prefix_witness :
  annotate Sample.person_nodes [VCollect "friends" true; VOther "max(x)"; VCollect "x" false] []
  = (fst (annotate Sample.person_nodes [VCollect "friends" true] []), Some XNotImplemented) /\
  annotate Sample.person_nodes [VCollect "friends" true]
    [("n", VCollect "name" false); ("b", VOther "obj"); ("c", VCollect "x" false)]
  = (fst (annotate Sample.person_nodes [VCollect "friends" true] [("n", VCollect "name" false)]),
     Some XNotImplemented).
Proof.
  destruct (annotate_keeps_prefix Sample.person_nodes [VCollect "friends" true] "obj") as [_ H2].
  split.
  - exact (proj1 (annotate_keeps_prefix Sample.person_nodes [VCollect "friends" true] "max(x)")
             [VCollect "x" false] [] eq_refl).
  - exact (H2 [("n", VCollect "name" false)] "b" [("c", VCollect "x" false)] eq_refl).
Defined.

End SubqueryFacts.

Module InstallFacts.
Import Model Compile.

(** The attributes [NodeSet.__init__] assigns after
    [install_traversals]. *)
Definition NODESET_OWN_ATTRS : list string :=
  ["filters"; "q_filters"; "must_match"; "dont_match"; "relations_to_fetch";
   "_extra_results"; "_subqueries"].

Lemma dict_get_set {V} (d : dict V) k v k' :
  dict_get (dict_set d k v) k' = if String.eqb k' k then Some v else dict_get d k'.
Proof.
  induction d as [|[k0 v0] d IH]; cbn.
  - destruct (String.eqb k' k); reflexivity.
  - destruct (String.eqb k k0) eqn:E1; cbn.
    + apply String.eqb_eq in E1. subst k0. destruct (String.eqb k' k); reflexivity.
    + destruct (String.eqb k' k0) eqn:E2; [|exact IH].
      apply String.eqb_eq in E2. subst k0.
      destruct (String.eqb k' k) eqn:E3; [|reflexivity].
      apply String.eqb_eq in E3. subst. rewrite String.eqb_refl in E1. discriminate.
Qed.

Lemma keys_set {V} (d : dict V) k v x : In x (map fst d) -> In x (map fst (dict_set d k v)).
Proof.
  induction d as [|[k0 v0] d IH]; cbn; [tauto|].
  destruct (String.eqb k k0) eqn:E; cbn.
  - apply String.eqb_eq in E. subst. tauto.
  - tauto.
Qed.

Lemma install_fails object_attr names inst k :
  In k names ->
  (in_strings k NODESET_CLASS_ATTRS = true \/ In k (map fst inst)) ->
  exists k', In k' names /\ install_traversals object_attr names inst = XErr (XTraversalExists k').
Proof.
  revert inst. induction names as [|k0 names IH]; intros inst Hin Hk; [destruct Hin|].
  cbn [install_traversals].
  destruct (nodeset_hasattr object_attr inst k0) eqn:Eh.
  - exists k0. split; [left; reflexivity | reflexivity].
  - destruct Hin as [<- | Hin].
    + exfalso. unfold nodeset_hasattr in Eh.
      destruct Hk as [Hk | Hk]; [rewrite Hk in Eh; rewrite orb_true_r in Eh; discriminate|].
      apply ResolverFacts.in_strings_In in Hk. rewrite Hk in Eh. discriminate.
    + destruct (IH (dict_set inst k0 ATraversal) Hin) as (k' & Hk' & E).
      * destruct Hk as [Hk | Hk]; [left; exact Hk | right; apply keys_set; exact Hk].
      * exists k'. split; [right; exact Hk' | exact E].
Qed.

Lemma install_ok object_attr names :
  forall inst inst', install_traversals object_attr names inst = XOk inst' ->
  forall k, dict_get inst' k = if in_strings k names then Some ATraversal else dict_get inst k.
Proof.
  induction names as [|k0 names IH]; intros inst inst' H k.
  - cbn in H. injection H as <-. reflexivity.
  - cbn [install_traversals] in H.
    destruct (nodeset_hasattr object_attr inst k0); [discriminate|].
    rewrite (IH _ _ H k), dict_get_set. unfold in_strings. cbn [existsb].
    destruct (String.eqb k k0); destruct (existsb (String.eqb k) names); reflexivity.
Qed.

Lemma fold_own d k :
  dict_get (fold_left (fun d k => dict_set d k AOwn) NODESET_OWN_ATTRS d) k =
  if in_strings k NODESET_OWN_ATTRS then Some AOwn else dict_get d k.
Proof.
  unfold NODESET_OWN_ATTRS. cbn [fold_left]. rewrite !dict_get_set.
  unfold in_strings. cbn [existsb].
  destruct (String.eqb k "filters"), (String.eqb k "q_filters"), (String.eqb k "must_match"),
    (String.eqb k "dont_match"), (String.eqb k "relations_to_fetch"),
    (String.eqb k "_extra_results"), (String.eqb k "_subqueries"); reflexivity.
Qed.

(** A relationship named like an attribute of the [NodeSet] class (such
    as [get] or [filter]), or like [source] or [source_class], makes
    [NodeSet(cls)] raise "Cannot install traversal", for that name or an
    earlier one. *)
Theorem nodeset_init_name_clash object_attr names k :
  In k names ->
  In k NODESET_CLASS_ATTRS \/ k = "source" \/ k = "source_class" ->
  exists k', In k' names /\ nodeset_init_attrs object_attr names = XErr (XTraversalExists k').
Proof.
  intros Hin Hk. unfold nodeset_init_attrs.
  destruct (install_fails object_attr names [("source", AOwn); ("source_class", AOwn)] k Hin)
    as (k' & Hk' & E).
  - destruct Hk as [Hk | [-> | ->]];
      [left; apply ResolverFacts.in_strings_In; exact Hk | right; cbn; tauto | right; cbn; tauto].
  - exists k'. rewrite E. split; [exact Hk' | reflexivity].
Qed.

(** When [NodeSet(cls)] succeeds, each relationship name holds its
    installed traversal, except one named like an attribute
    [NodeSet.__init__] assigns afterwards ([filters], [q_filters],
    [must_match], ...): that traversal is silently overwritten. *)
Theorem nodeset_init_overwrites object_attr names inst :
  nodeset_init_attrs object_attr names = XOk inst ->
  forall k, In k names ->
  dict_get inst k = Some (if in_strings k NODESET_OWN_ATTRS then AOwn else ATraversal).
Proof.
  unfold nodeset_init_attrs. intros H k Hk.
  destruct (install_traversals object_attr names _) as [inst0|e] eqn:E; [|discriminate H].
  injection H as <-.
  refine (eq_trans (fold_own inst0 k) _).
  rewrite (install_ok _ _ _ _ E k).
  apply ResolverFacts.in_strings_In in Hk. rewrite Hk.
  destruct (in_strings k NODESET_OWN_ATTRS); reflexivity.
Qed.

(** Witnesses: a relationship named [get], and one named [filters]. *)
Lemma nodeset_init_name_clash_witness :
  exists k', In k' ["friends"; "get"] /\
    nodeset_init_attrs (fun _ => false) ["friends"; "get"] = XErr (XTraversalExists k').
Proof.
  apply (nodeset_init_name_clash (fun _ => false) ["friends"; "get"] "get").
  - right. left. reflexivity.
  - left. vm_compute. tauto.
Defined.

Lemma nodeset_init_overwrites_witness :
  exists inst, nodeset_init_attrs (fun _ => false) ["friends"; "filters"] = XOk inst /\
    dict_get inst "filters" = Some AOwn.
Proof.
  destruct (nodeset_init_attrs (fun _ => false) ["friends"; "filters"]) as [inst|e] eqn:E.
  2:{ vm_compute in E. discriminate E. }
  exists inst. split; [reflexivity|].
  exact (nodeset_init_overwrites (fun _ => false) ["friends"; "filters"] inst E "filters"
           (or_intror (or_introl eq_refl))).
Defined.

End InstallFacts.
